(** * Bestway API client: the status cache of [bestway/api.py]

    A shallow embedding of [BestwayApi.fetch_data] (the poll loop that decodes
    device attributes and merges them into the per-device status caches) and of
    the command methods ([spa_set_power] ... [pool_filter_set_time]) that write
    upstream and then update the cached record in place.

    Conventions of the embedding:
    - Python [int] is [Z]; JSON attribute values are the scalar values a
      decoded JSON document holds ([value]); JSON numbers with a fractional
      part and nested containers are left out of the model.
    - a [dict] is a [gmap string _]; [d[k]] is a lookup that raises [KeyError].
    - exceptions are the [Raise] results of a small error monad; the state of a
      [BestwayApi] object (its three caches) is passed explicitly.
    - the network ([_do_get], [_do_post]) and the clock ([time()]) are
      parameters of the operations. *)

From Stdlib Require Import ZArith String Ascii List Sorted DecimalString.
From stdpp Require Import base option list sorting strings gmap.

Local Open Scope string_scope.
Local Open Scope list_scope.
Local Open Scope Z_scope.

(** ** Values, exceptions and the error monad *)

(** The scalar values of a decoded JSON document, as Python sees them. *)
Inductive value : Type :=
  | VNone
  | VBool (b : bool)
  | VInt (z : Z)
  | VStr (s : string).

#[global] Instance value_eq_dec : EqDecision value.
Proof. solve_decision. Defined.

(** The exceptions that travel through [api.py]. [UpstreamError] stands for
    whatever [_do_get] / [_do_post] raise (a timeout, an HTTP error or one of
    the [BestwayException]s of [_raise_for_status]), tagged by an error code. *)
Inductive exn : Type :=
  | KeyError (key : string)
  | TypeError
  | BestwayException (msg : string)
  | UpstreamError (code : Z).

#[global] Instance exn_eq_dec : EqDecision exn.
Proof. solve_decision. Defined.

Inductive result (A : Type) : Type :=
  | Ok (a : A)
  | Raise (e : exn).
Arguments Ok {A} a.
Arguments Raise {A} e.

#[global] Instance result_ret : MRet result := fun _ a => Ok a.
#[global] Instance result_bind : MBind result := fun _ _ f m =>
  match m with
  | Ok a => f a
  | Raise e => Raise e
  end.

Definition is_ok {A} (r : result A) : bool :=
  match r with Ok _ => true | Raise _ => false end.

(** ** Python operators on JSON values *)

(** The integer a Python number denotes ([True] is [1], [False] is [0]). *)
Definition as_number (v : value) : option Z :=
  match v with
  | VBool b => Some (if b then 1 else 0)
  | VInt z => Some z
  | _ => None
  end.

(** [v == n] for an integer literal [n]: never raises. *)
Definition py_eq_int (v : value) (n : Z) : bool :=
  match as_number v with
  | Some z => z =? n
  | None => false
  end.

(** [v == s] for a string literal [s]: never raises. *)
Definition py_eq_str (v : value) (s : string) : bool :=
  match v with
  | VStr t => bool_decide (t = s)
  | _ => false
  end.

(** [a >= b]: numbers compare by value, strings lexicographically, anything
    else raises [TypeError]. *)
Definition py_ge (a b : value) : result bool :=
  match as_number a, as_number b with
  | Some x, Some y => Ok (y <=? x)
  | _, _ =>
      match a, b with
      | VStr s, VStr t => Ok (String.leb t s)
      | _, _ => Raise TypeError
      end
  end.

(** [a > n] for an integer literal [n]. *)
Definition py_gt_int (a : value) (n : Z) : result bool :=
  match as_number a with
  | Some x => Ok (n <? x)
  | None => Raise TypeError
  end.

(** [d[k]] on a dict. *)
Definition getitem {A} (d : gmap string A) (k : string) : result A :=
  match d !! k with
  | Some v => Ok v
  | None => Raise (KeyError k)
  end.

(** [f"{n}"] for an integer. *)
Definition fmt_int (n : Z) : string := NilZero.string_of_int (Z.to_int n).

(** ** Data model ([model.py]) *)

(** Modelled from the spec: [BestwayDeviceType], declared in [model.py]. The
    members are the four that [fetch_data] dispatches on (spec: "closed
    enumeration: spa-v-current, spa-v01-legacy, pool-filter, unknown"). *)
Inductive BestwayDeviceType : Type :=
  | AIRJET_SPA
  | Airjet_V01
  | POOL_FILTER
  | UNKNOWN.

#[global] Instance BestwayDeviceType_eq_dec : EqDecision BestwayDeviceType.
Proof. solve_decision. Defined.

Inductive TemperatureUnit : Type :=
  | CELSIUS
  | FAHRENHEIT.

#[global] Instance TemperatureUnit_eq_dec : EqDecision TemperatureUnit.
Proof. solve_decision. Defined.

(** Modelled from the spec: [BestwayDevice], declared in [model.py]. Only the
    fields [fetch_data] reads are kept. *)
Record BestwayDevice : Type := {
  device_id : string;
  product_name : string;
  device_type : BestwayDeviceType
}.

(** The two spa status classes of [model.py] share their fields; [spa_class]
    records which constructor built the object. *)
Inductive spa_class : Type :=
  | SpaDeviceStatus
  | SpaDeviceV01Status.

#[global] Instance spa_class_eq_dec : EqDecision spa_class.
Proof. solve_decision. Defined.

(** Modelled from the spec: [BestwaySpaDeviceStatus] and
    [BestwaySpaDeviceV01Status], declared in [model.py]. The fields are the
    twelve positional arguments of the constructor calls in [fetch_data], in
    that order, named as the command methods name them. A field that
    [fetch_data] fills with a raw attribute (or with the literal [0]) is a
    [value]; a field that only ever receives the result of a comparison or a
    [bool] argument is a [bool]. *)
Record BestwaySpaDeviceStatus : Type := {
  spa_cls : spa_class;
  timestamp : Z;
  spa_power : value;
  temp_now : value;
  temp_set : value;
  temp_set_unit : TemperatureUnit;
  heat_power : bool;
  heat_temp_reach : bool;
  filter_power : bool;
  wave_power : value;
  locked : value;
  errors : list Z;
  earth_fault : value
}.

(** Modelled from the spec: [BestwayPoolFilterDeviceStatus], declared in
    [model.py]: the six positional arguments of its constructor call. *)
Record BestwayPoolFilterDeviceStatus : Type := {
  pf_timestamp : Z;
  pf_filter : bool;
  pf_power : bool;
  pf_time : value;
  pf_status : bool;
  pf_error : bool
}.

#[global] Instance BestwaySpaDeviceStatus_eq_dec : EqDecision BestwaySpaDeviceStatus.
Proof. solve_decision. Defined.

#[global] Instance BestwayPoolFilterDeviceStatus_eq_dec :
  EqDecision BestwayPoolFilterDeviceStatus.
Proof. solve_decision. Defined.

(** [BestwayDeviceStatus]: what [cached_state] may hold in [fetch_data]. *)
Inductive BestwayDeviceStatus : Type :=
  | SpaStatus (s : BestwaySpaDeviceStatus)
  | PoolFilterStatus (p : BestwayPoolFilterDeviceStatus).

Definition status_timestamp (c : BestwayDeviceStatus) : Z :=
  match c with
  | SpaStatus s => timestamp s
  | PoolFilterStatus p => pf_timestamp p
  end.

(** Attribute assignments on a cached object. *)
Definition set_timestamp (t : Z) (c : BestwaySpaDeviceStatus) :=
  {| spa_cls := spa_cls c; timestamp := t; spa_power := spa_power c;
     temp_now := temp_now c; temp_set := temp_set c;
     temp_set_unit := temp_set_unit c; heat_power := heat_power c;
     heat_temp_reach := heat_temp_reach c; filter_power := filter_power c;
     wave_power := wave_power c; locked := locked c; errors := errors c;
     earth_fault := earth_fault c |}.

Definition set_spa_power (v : value) (c : BestwaySpaDeviceStatus) :=
  {| spa_cls := spa_cls c; timestamp := timestamp c; spa_power := v;
     temp_now := temp_now c; temp_set := temp_set c;
     temp_set_unit := temp_set_unit c; heat_power := heat_power c;
     heat_temp_reach := heat_temp_reach c; filter_power := filter_power c;
     wave_power := wave_power c; locked := locked c; errors := errors c;
     earth_fault := earth_fault c |}.

Definition set_temp_set (v : value) (c : BestwaySpaDeviceStatus) :=
  {| spa_cls := spa_cls c; timestamp := timestamp c; spa_power := spa_power c;
     temp_now := temp_now c; temp_set := v;
     temp_set_unit := temp_set_unit c; heat_power := heat_power c;
     heat_temp_reach := heat_temp_reach c; filter_power := filter_power c;
     wave_power := wave_power c; locked := locked c; errors := errors c;
     earth_fault := earth_fault c |}.

Definition set_heat_power (b : bool) (c : BestwaySpaDeviceStatus) :=
  {| spa_cls := spa_cls c; timestamp := timestamp c; spa_power := spa_power c;
     temp_now := temp_now c; temp_set := temp_set c;
     temp_set_unit := temp_set_unit c; heat_power := b;
     heat_temp_reach := heat_temp_reach c; filter_power := filter_power c;
     wave_power := wave_power c; locked := locked c; errors := errors c;
     earth_fault := earth_fault c |}.

Definition set_filter_power (b : bool) (c : BestwaySpaDeviceStatus) :=
  {| spa_cls := spa_cls c; timestamp := timestamp c; spa_power := spa_power c;
     temp_now := temp_now c; temp_set := temp_set c;
     temp_set_unit := temp_set_unit c; heat_power := heat_power c;
     heat_temp_reach := heat_temp_reach c; filter_power := b;
     wave_power := wave_power c; locked := locked c; errors := errors c;
     earth_fault := earth_fault c |}.

Definition set_wave_power (v : value) (c : BestwaySpaDeviceStatus) :=
  {| spa_cls := spa_cls c; timestamp := timestamp c; spa_power := spa_power c;
     temp_now := temp_now c; temp_set := temp_set c;
     temp_set_unit := temp_set_unit c; heat_power := heat_power c;
     heat_temp_reach := heat_temp_reach c; filter_power := filter_power c;
     wave_power := v; locked := locked c; errors := errors c;
     earth_fault := earth_fault c |}.

Definition set_locked (v : value) (c : BestwaySpaDeviceStatus) :=
  {| spa_cls := spa_cls c; timestamp := timestamp c; spa_power := spa_power c;
     temp_now := temp_now c; temp_set := temp_set c;
     temp_set_unit := temp_set_unit c; heat_power := heat_power c;
     heat_temp_reach := heat_temp_reach c; filter_power := filter_power c;
     wave_power := wave_power c; locked := v; errors := errors c;
     earth_fault := earth_fault c |}.

Definition set_pf_timestamp (t : Z) (c : BestwayPoolFilterDeviceStatus) :=
  {| pf_timestamp := t; pf_filter := pf_filter c; pf_power := pf_power c;
     pf_time := pf_time c; pf_status := pf_status c; pf_error := pf_error c |}.

Definition set_pf_power (b : bool) (c : BestwayPoolFilterDeviceStatus) :=
  {| pf_timestamp := pf_timestamp c; pf_filter := pf_filter c; pf_power := b;
     pf_time := pf_time c; pf_status := pf_status c; pf_error := pf_error c |}.

Definition set_pf_time (v : value) (c : BestwayPoolFilterDeviceStatus) :=
  {| pf_timestamp := pf_timestamp c; pf_filter := pf_filter c;
     pf_power := pf_power c; pf_time := v; pf_status := pf_status c;
     pf_error := pf_error c |}.

(** ** The API object and its collaborators *)

(** The caches of a [BestwayApi] object ([__init__]). [BestwayApiResults]
    holds these three same dicts, so the state also is what [fetch_data]
    returns. *)
Record BestwayApi : Type := {
  spa_state_cache : gmap string BestwaySpaDeviceStatus;
  pool_filter_state_cache : gmap string BestwayPoolFilterDeviceStatus;
  unknown_states : gmap string string
}.

(** A poll response [{"updated_at": ..., "attr": {...}}], with both keys
    present, [updated_at] an integer and [attr] a dict. ([fetch_data] reads
    both keys outside its [try].) *)
Record latest_data : Type := {
  updated_at : Z;
  attr : gmap string value
}.

(** The server: what [_do_get] returns for the latest data of a device and
    what [_do_post] does with a control request [{"attrs": {key: v}}]. *)
Record server : Type := {
  do_get : string -> result latest_data;
  do_post : string -> string * value -> result unit
}.

(** ** Error-flag extraction *)

(** [f"system_err{err_num}"] *)
Definition system_err_key (err_num : Z) : string :=
  "system_err" +:+ fmt_int err_num.

(** [f"E0{err_num}"] below ten, [f"E{err_num}"] from ten on. *)
Definition v01_err_key (err_num : Z) : string :=
  if err_num <? 10 then "E0" +:+ fmt_int err_num else "E" +:+ fmt_int err_num.

(** The loop
    [for err_num in nums: if device_attrs[key(err_num)] == 1: errors.append(err_num)]
    run from the list [errors] built so far. *)
Fixpoint scan_errors (key : Z -> string) (device_attrs : gmap string value)
    (errors : list Z) (nums : list Z) : result (list Z) :=
  match nums with
  | [] => Ok errors
  | err_num :: rest =>
      v ← getitem device_attrs (key err_num);
      scan_errors key device_attrs
        (if py_eq_int v 1 then errors ++ [err_num] else errors) rest
  end.

(** ** Decoding ([fetch_data], the body of the [try]) *)

(** The [AIRJET_SPA] branch up to the constructor call. Arguments are
    evaluated left to right, so the first missing key is the one raised. *)
Definition decode_airjet_spa (api_update_timestamp : Z)
    (device_attrs : gmap string value) : result BestwaySpaDeviceStatus :=
  errors ← scan_errors system_err_key device_attrs [] (seqZ 1 9);
  power ← getitem device_attrs "power";
  temp_now ← getitem device_attrs "temp_now";
  temp_set ← getitem device_attrs "temp_set";
  temp_set_unit ← getitem device_attrs "temp_set_unit";
  heat_power ← getitem device_attrs "heat_power";
  heat_temp_reach ← getitem device_attrs "heat_temp_reach";
  filter_power ← getitem device_attrs "filter_power";
  wave_power ← getitem device_attrs "wave_power";
  locked ← getitem device_attrs "locked";
  earth ← getitem device_attrs "earth";
  mret {| spa_cls := SpaDeviceStatus;
          timestamp := api_update_timestamp;
          spa_power := power;
          temp_now := temp_now;
          temp_set := temp_set;
          temp_set_unit :=
            if py_eq_str temp_set_unit "摄氏" then CELSIUS else FAHRENHEIT;
          heat_power := py_eq_int heat_power 1;
          heat_temp_reach := py_eq_int heat_temp_reach 1;
          filter_power := py_eq_int filter_power 1;
          wave_power := VBool (py_eq_int wave_power 1);
          locked := VBool (py_eq_int locked 1);
          errors := errors;
          earth_fault := VBool (py_eq_int earth 1) |}.

(** The [Airjet_V01] branch up to the constructor call. *)
Definition decode_airjet_v01 (api_update_timestamp : Z)
    (device_attrs : gmap string value) : result BestwaySpaDeviceStatus :=
  errors ← scan_errors v01_err_key device_attrs [] (seqZ 1 31);
  power ← getitem device_attrs "power";
  Tnow ← getitem device_attrs "Tnow";
  Tset ← getitem device_attrs "Tset";
  Tunit ← getitem device_attrs "Tunit";
  heat ← getitem device_attrs "heat";
  heat_on ← py_gt_int heat 0;
  Tnow' ← getitem device_attrs "Tnow";
  Tset' ← getitem device_attrs "Tset";
  reached ← py_ge Tnow' Tset';
  filter ← getitem device_attrs "filter";
  filter_on ← py_gt_int filter 0;
  wave ← getitem device_attrs "wave";
  mret {| spa_cls := SpaDeviceV01Status;
          timestamp := api_update_timestamp;
          spa_power := power;
          temp_now := Tnow;
          temp_set := Tset;
          temp_set_unit := if py_eq_int Tunit 1 then CELSIUS else FAHRENHEIT;
          heat_power := heat_on;
          heat_temp_reach := reached;
          filter_power := filter_on;
          wave_power := wave;
          locked := VInt 0;
          errors := errors;
          earth_fault := VInt 0 |}.

(** The [POOL_FILTER] branch up to the constructor call. *)
Definition decode_pool_filter (api_update_timestamp : Z)
    (device_attrs : gmap string value) : result BestwayPoolFilterDeviceStatus :=
  filter ← getitem device_attrs "filter";
  power ← getitem device_attrs "power";
  time ← getitem device_attrs "time";
  status ← getitem device_attrs "status";
  error ← getitem device_attrs "error";
  mret {| pf_timestamp := api_update_timestamp;
          pf_filter := py_eq_int filter 1;
          pf_power := py_eq_int power 1;
          pf_time := time;
          pf_status := py_eq_str status "运行中";
          pf_error := negb (py_eq_int error 0) |}.

(** What one poll did for one device: the four debug / error log lines of the
    loop body, plus [Stored] for a pass through the [try] without exception. *)
Inductive poll_outcome : Type :=
  | NoData
  | IgnoredStale
  | Stored
  | MissingKey (key : string).

#[global] Instance poll_outcome_eq_dec : EqDecision poll_outcome.
Proof. solve_decision. Defined.

(** [cached_state] of [fetch_data]: the spa cache is asked first, then the
    pool filter cache. (A dataclass instance is truthy.) *)
Definition cached_state (api : BestwayApi) (did : string)
    : option BestwayDeviceStatus :=
  match spa_state_cache api !! did with
  | Some s => Some (SpaStatus s)
  | None =>
      match pool_filter_state_cache api !! did with
      | Some p => Some (PoolFilterStatus p)
      | None => None
      end
  end.

Definition local_update_timestamp (api : BestwayApi) (did : string) : Z :=
  match cached_state api did with
  | Some c => status_timestamp c
  | None => 0
  end.

Definition store_spa (api : BestwayApi) (did : string)
    (s : BestwaySpaDeviceStatus) : BestwayApi :=
  {| spa_state_cache := <[did := s]> (spa_state_cache api);
     pool_filter_state_cache := pool_filter_state_cache api;
     unknown_states := unknown_states api |}.

Definition store_pool_filter (api : BestwayApi) (did : string)
    (p : BestwayPoolFilterDeviceStatus) : BestwayApi :=
  {| spa_state_cache := spa_state_cache api;
     pool_filter_state_cache := <[did := p]> (pool_filter_state_cache api);
     unknown_states := unknown_states api |}.

Definition store_unknown (api : BestwayApi) (did : string) (dump : string)
    : BestwayApi :=
  {| spa_state_cache := spa_state_cache api;
     pool_filter_state_cache := pool_filter_state_cache api;
     unknown_states := <[did := dump]> (unknown_states api) |}.

Section Api.

(** [json.dumps] of the standard library, on an attribute dict. *)
Variable json_dumps : gmap string value -> string.

(** The body of the [try]: decode by device type, then assign into the cache
    of that type. The assignment is the last statement of each branch, so an
    exception leaves the caches as they were. *)
Definition decode_and_store (api : BestwayApi) (did : string)
    (device_info : BestwayDevice) (data : latest_data) : result BestwayApi :=
  let device_attrs := attr data in
  match device_type device_info with
  | AIRJET_SPA =>
      spa_status ← decode_airjet_spa (updated_at data) device_attrs;
      mret (store_spa api did spa_status)
  | Airjet_V01 =>
      spa_status ← decode_airjet_v01 (updated_at data) device_attrs;
      mret (store_spa api did spa_status)
  | POOL_FILTER =>
      filter_status ← decode_pool_filter (updated_at data) device_attrs;
      mret (store_pool_filter api did filter_status)
  | UNKNOWN =>
      let attr_dump := json_dumps device_attrs in
      mret (store_unknown api did attr_dump)
  end.

(** One iteration of the [for] loop of [fetch_data], after [_do_get] has
    returned [data]. [except KeyError] catches a missing key and logs it; any
    other exception leaves the loop. *)
Definition fetch_device (api : BestwayApi) (did : string)
    (device_info : BestwayDevice) (data : latest_data)
    : result poll_outcome * BestwayApi :=
  let api_update_timestamp := updated_at data in
  if api_update_timestamp =? 0 then (Ok NoData, api)
  else if api_update_timestamp <? local_update_timestamp api did
  then (Ok IgnoredStale, api)
  else
    match decode_and_store api did device_info data with
    | Ok api' => (Ok Stored, api')
    | Raise (KeyError key) => (Ok (MissingKey key), api)
    | Raise e => (Raise e, api)
    end.

(** [fetch_data]: the loop over [self.devices.items()], in dict order. The
    first component is the log, one entry per device the loop finished with;
    the second is [Ok tt] when the loop ran to its end (the caches are then
    returned as [BestwayApiResults]) and the exception otherwise. *)
Fixpoint fetch_data (srv : server) (api : BestwayApi)
    (devices : list (string * BestwayDevice))
    : list (string * poll_outcome) * result unit * BestwayApi :=
  match devices with
  | [] => ([], Ok tt, api)
  | (did, device_info) :: rest =>
      match do_get srv did with
      | Raise e => ([], Raise e, api)
      | Ok data =>
          match fetch_device api did device_info data with
          | (Raise e, api') => ([], Raise e, api')
          | (Ok o, api') =>
              let '(log, r, api'') := fetch_data srv api' rest in
              ((did, o) :: log, r, api'')
          end
      end
  end.

End Api.

(** ** Commands

    Every command method has the same shape: look the cached object up (and
    raise [BestwayException] when there is none), [await self._do_post(...)],
    and only then assign to the attributes of the cached object, starting
    with [timestamp = int(time())]. [now] is that clock reading. An exception
    of [_do_post] leaves the method before any assignment. The cached object
    is the one stored under [device_id], so assigning to its attributes is
    modelled as storing the updated record under the same key. *)

Definition not_recognised (device_id : string) : exn :=
  BestwayException ("Device '" +:+ device_id +:+ "' is not recognised").

(** [1 if flag else 0] *)
Definition flag_int (flag : bool) : value := VInt (if flag then 1 else 0).

(** [spa_set_power]: turn the spa on/off; powering off turns the other functions off. *)
Definition spa_set_power (srv : server) (now : Z) (api : BestwayApi)
    (device_id : string) (power : bool) : result unit * BestwayApi :=
  match spa_state_cache api !! device_id with
  | None => (Raise (not_recognised device_id), api)
  | Some cached_state =>
      match do_post srv device_id ("power", flag_int power) with
      | Raise e => (Raise e, api)
      | Ok _ =>
          let cached_state := set_timestamp now cached_state in
          let cached_state := set_spa_power (VBool power) cached_state in
          let cached_state :=
            if negb power then
              set_wave_power (VBool false)
                (set_heat_power false (set_filter_power false cached_state))
            else cached_state in
          (Ok tt, store_spa api device_id cached_state)
      end
  end.

(** [spa_set_heat]: turn the heater on/off; turning it on turns power and the filter pump on. *)
Definition spa_set_heat (srv : server) (now : Z) (api : BestwayApi)
    (device_id : string) (heat : bool) : result unit * BestwayApi :=
  match spa_state_cache api !! device_id with
  | None => (Raise (not_recognised device_id), api)
  | Some cached_state =>
      match do_post srv device_id ("heat_power", flag_int heat) with
      | Raise e => (Raise e, api)
      | Ok _ =>
          let cached_state := set_timestamp now cached_state in
          let cached_state := set_heat_power heat cached_state in
          let cached_state :=
            if heat then
              set_filter_power true (set_spa_power (VBool true) cached_state)
            else cached_state in
          (Ok tt, store_spa api device_id cached_state)
      end
  end.

(** [spa_set_filter]: turn the filter pump on/off. *)
Definition spa_set_filter (srv : server) (now : Z) (api : BestwayApi)
    (device_id : string) (filtering : bool) : result unit * BestwayApi :=
  match spa_state_cache api !! device_id with
  | None => (Raise (not_recognised device_id), api)
  | Some cached_state =>
      match do_post srv device_id ("filter_power", flag_int filtering) with
      | Raise e => (Raise e, api)
      | Ok _ =>
          let cached_state := set_timestamp now cached_state in
          let cached_state := set_filter_power filtering cached_state in
          let cached_state :=
            if filtering then set_spa_power (VBool true) cached_state
            else set_heat_power false (set_wave_power (VBool false) cached_state) in
          (Ok tt, store_spa api device_id cached_state)
      end
  end.

(** [spa_set_locked]: lock or unlock the control panel. *)
Definition spa_set_locked (srv : server) (now : Z) (api : BestwayApi)
    (device_id : string) (is_locked : bool) : result unit * BestwayApi :=
  match spa_state_cache api !! device_id with
  | None => (Raise (not_recognised device_id), api)
  | Some cached_state =>
      match do_post srv device_id ("locked", flag_int is_locked) with
      | Raise e => (Raise e, api)
      | Ok _ =>
          let cached_state := set_timestamp now cached_state in
          let cached_state := set_locked (VBool is_locked) cached_state in
          (Ok tt, store_spa api device_id cached_state)
      end
  end.

(** [spa_set_bubbles]: turn the bubbles on/off. *)
Definition spa_set_bubbles (srv : server) (now : Z) (api : BestwayApi)
    (device_id : string) (bubbles : bool) : result unit * BestwayApi :=
  match spa_state_cache api !! device_id with
  | None => (Raise (not_recognised device_id), api)
  | Some cached_state =>
      match do_post srv device_id ("wave_power", flag_int bubbles) with
      | Raise e => (Raise e, api)
      | Ok _ =>
          let cached_state := set_timestamp now cached_state in
          let cached_state := set_wave_power (VBool bubbles) cached_state in
          let cached_state :=
            if bubbles then set_spa_power (VBool true) cached_state
            else cached_state in
          (Ok tt, store_spa api device_id cached_state)
      end
  end.

(** [spa_set_target_temp]: set the target temperature. *)
Definition spa_set_target_temp (srv : server) (now : Z) (api : BestwayApi)
    (device_id : string) (target_temp : Z) : result unit * BestwayApi :=
  match spa_state_cache api !! device_id with
  | None => (Raise (not_recognised device_id), api)
  | Some cached_state =>
      match do_post srv device_id ("temp_set", VInt target_temp) with
      | Raise e => (Raise e, api)
      | Ok _ =>
          let cached_state := set_timestamp now cached_state in
          let cached_state := set_temp_set (VInt target_temp) cached_state in
          (Ok tt, store_spa api device_id cached_state)
      end
  end.

(** [pool_filter_set_power]: control power to a pump device. *)
Definition pool_filter_set_power (srv : server) (now : Z) (api : BestwayApi)
    (device_id : string) (power : bool) : result unit * BestwayApi :=
  match pool_filter_state_cache api !! device_id with
  | None => (Raise (not_recognised device_id), api)
  | Some cached_state =>
      match do_post srv device_id ("power", flag_int power) with
      | Raise e => (Raise e, api)
      | Ok _ =>
          let cached_state := set_pf_timestamp now cached_state in
          let cached_state := set_pf_power power cached_state in
          (Ok tt, store_pool_filter api device_id cached_state)
      end
  end.

(** [pool_filter_set_time]: set the filter run time in hours. *)
Definition pool_filter_set_time (srv : server) (now : Z) (api : BestwayApi)
    (device_id : string) (hours : Z) : result unit * BestwayApi :=
  match pool_filter_state_cache api !! device_id with
  | None => (Raise (not_recognised device_id), api)
  | Some cached_state =>
      match do_post srv device_id ("time", VInt hours) with
      | Raise e => (Raise e, api)
      | Ok _ =>
          let cached_state := set_pf_timestamp now cached_state in
          let cached_state := set_pf_time (VInt hours) cached_state in
          (Ok tt, store_pool_filter api device_id cached_state)
      end
  end.

(** ** Sample data *)

Definition airjet_core : list (string * value) :=
  [("power", VInt 1); ("temp_now", VInt 36); ("temp_set", VInt 38);
   ("temp_set_unit", VStr "摄氏"); ("heat_power", VInt 1);
   ("heat_temp_reach", VInt 0); ("filter_power", VInt 1);
   ("wave_power", VInt 0); ("locked", VInt 0); ("earth", VInt 0)].

Definition v01_core : list (string * value) :=
  [("power", VInt 1); ("Tnow", VInt 36); ("Tset", VInt 38); ("Tunit", VInt 1);
   ("heat", VInt 3); ("filter", VInt 2); ("wave", VInt 0)].

Definition pool_core : list (string * value) :=
  [("filter", VInt 0); ("power", VInt 1); ("time", VInt 4);
   ("status", VStr "运行中"); ("error", VInt 0)].

(** A current-firmware payload whose flag [system_err n] is [flag n]. *)
Definition airjet_payload (flag : Z -> value) : gmap string value :=
  list_to_map (((fun n => (system_err_key n, flag n)) <$> seqZ 1 9) ++ airjet_core).

(** A legacy payload whose flag [E01] .. [E31] number [n] is [flag n]. *)
Definition v01_payload (flag : Z -> value) : gmap string value :=
  list_to_map (((fun n => (v01_err_key n, flag n)) <$> seqZ 1 31) ++ v01_core).

Definition pool_payload : gmap string value := list_to_map pool_core.

(** Payloads for the error-flag cases. *)
Definition airjet_payload_err3 : gmap string value :=
  airjet_payload (fun n => VInt (if n =? 3 then 1 else 0)).

Definition airjet_payload_err1_err9 : gmap string value :=
  airjet_payload (fun n => VInt (if (n =? 1) || (n =? 9) then 1 else 0)).

Definition v01_payload_E03_is_2 : gmap string value :=
  v01_payload (fun n => VInt (if n =? 3 then 2 else 0)).

Definition v01_payload_without_E05 : gmap string value :=
  delete "E05" (v01_payload (fun _ => VInt 0)).

Definition airjet_payload_without_err5 : gmap string value :=
  delete "system_err5" (airjet_payload (fun _ => VInt 0)).

Definition poll (ts : Z) (device_attrs : gmap string value) : latest_data :=
  {| updated_at := ts; attr := device_attrs |}.

(** A stand-in for [json.dumps] in the examples: the keys of the dict. *)
Definition sample_dumps (d : gmap string value) : string :=
  String.concat "," (fst <$> map_to_list d).

Definition empty_api : BestwayApi :=
  {| spa_state_cache := ∅; pool_filter_state_cache := ∅; unknown_states := ∅ |}.

Definition sample_spa : BestwaySpaDeviceStatus :=
  {| spa_cls := SpaDeviceStatus; timestamp := 100; spa_power := VInt 1;
     temp_now := VInt 36; temp_set := VInt 38; temp_set_unit := CELSIUS;
     heat_power := true; heat_temp_reach := false; filter_power := true;
     wave_power := VBool true; locked := VBool false; errors := [];
     earth_fault := VBool false |}.

Definition sample_pool : BestwayPoolFilterDeviceStatus :=
  {| pf_timestamp := 100; pf_filter := false; pf_power := true;
     pf_time := VInt 4; pf_status := true; pf_error := false |}.

(** An object with one spa ("spa1") and one pool filter ("pump1") cached. *)
Definition sample_api : BestwayApi :=
  {| spa_state_cache := {[ "spa1" := sample_spa ]};
     pool_filter_state_cache := {[ "pump1" := sample_pool ]};
     unknown_states := ∅ |}.

Definition device (did : string) (ty : BestwayDeviceType) : BestwayDevice :=
  {| device_id := did; product_name := ""; device_type := ty |}.

(** A server on which every control request fails with code [code]. *)
Definition failing_server (code : Z) : server :=
  {| do_get := fun _ => Raise (UpstreamError code);
     do_post := fun _ _ => Raise (UpstreamError code) |}.

(** A server that accepts every control request and answers every poll
    with [data]. *)
Definition steady_server (data : latest_data) : server :=
  {| do_get := fun _ => Ok data; do_post := fun _ _ => Ok tt |}.

(** Devices, polls and servers for the examples. *)
Definition spa1 : BestwayDevice := device "spa1" AIRJET_SPA.
Definition pump1 : BestwayDevice := device "pump1" POOL_FILTER.
Definition x1 : BestwayDevice := device "x1" UNKNOWN.

Definition fresh_airjet_poll : latest_data :=
  poll 150 (airjet_payload (fun _ => VInt 0)).

Definition stale_airjet_poll : latest_data :=
  poll 50 (airjet_payload (fun _ => VInt 0)).

Definition offline_poll : latest_data := poll 0 ∅.

Definition broken_airjet_poll : latest_data :=
  poll 150 airjet_payload_without_err5.

Definition pool_poll : latest_data := poll 150 pool_payload.

(** What [fresh_airjet_poll] decodes to. *)
Definition fresh_airjet_status : BestwaySpaDeviceStatus :=
  {| spa_cls := SpaDeviceStatus; timestamp := 150; spa_power := VInt 1;
     temp_now := VInt 36; temp_set := VInt 38; temp_set_unit := CELSIUS;
     heat_power := true; heat_temp_reach := false; filter_power := true;
     wave_power := VBool false; locked := VBool false; errors := [];
     earth_fault := VBool false |}.

(** A server whose answer for "spa1" lacks [system_err5]. *)
Definition sample_server : server :=
  {| do_get := fun did =>
       if bool_decide (did = "spa1") then Ok broken_airjet_poll
       else Ok pool_poll;
     do_post := fun _ _ => Ok tt |}.

(** ** Specification-side notions *)

(** The flag of error number [n] is present and equal to [1]. *)
Definition flag_active (key : Z -> string) (device_attrs : gmap string value)
    (n : Z) : bool :=
  match device_attrs !! key n with
  | Some v => py_eq_int v 1
  | None => false
  end.

(** [decodes_to ty data c]: the [try] body of [fetch_data] builds the status
    [c] from [data] for a device of type [ty]. *)
Inductive decodes_to : BestwayDeviceType -> latest_data -> BestwayDeviceStatus -> Prop :=
  | decodes_airjet data s :
      decode_airjet_spa (updated_at data) (attr data) = Ok s ->
      decodes_to AIRJET_SPA data (SpaStatus s)
  | decodes_v01 data s :
      decode_airjet_v01 (updated_at data) (attr data) = Ok s ->
      decodes_to Airjet_V01 data (SpaStatus s)
  | decodes_pool data p :
      decode_pool_filter (updated_at data) (attr data) = Ok p ->
      decodes_to POOL_FILTER data (PoolFilterStatus p).

(** [decode_raises ty data e]: for a device of known type [ty], building the
    status from [data] raises [e]. *)
Inductive decode_raises : BestwayDeviceType -> latest_data -> exn -> Prop :=
  | raises_airjet data e :
      decode_airjet_spa (updated_at data) (attr data) = Raise e ->
      decode_raises AIRJET_SPA data e
  | raises_v01 data e :
      decode_airjet_v01 (updated_at data) (attr data) = Raise e ->
      decode_raises Airjet_V01 data e
  | raises_pool data e :
      decode_pool_filter (updated_at data) (attr data) = Raise e ->
      decode_raises POOL_FILTER data e.

(** Both statuses belong to the same cache. *)
Definition same_cache (a b : BestwayDeviceStatus) : Prop :=
  match a, b with
  | SpaStatus _, SpaStatus _ => True
  | PoolFilterStatus _, PoolFilterStatus _ => True
  | _, _ => False
  end.

(** ** The HTTP layer ([_raise_for_status], [_do_get], [_do_post],
    [get_user_token]) *)

(** A decoded JSON document: an object of scalar attributes, or any other
    JSON value (a list, a number, a string, [null]). *)
Inductive json_doc : Type :=
  | JObject (d : gmap string value)
  | JOther.

(** What the code reads of an aiohttp [ClientResponse]: [response.ok],
    [response.status], the result of [response.json()] (with the content-type
    check; [None] when it raises) and the result of
    [response.json(content_type=None)] ([None] when it raises). *)
Record ClientResponse : Type := {
  resp_ok : bool;
  resp_status : Z;
  resp_json : option json_doc;
  resp_json_any : option json_doc
}.

(** The exceptions of the HTTP layer. [SessionError] is what [session.get] /
    [session.post] or the timeout raise; [JsonError] is a failing
    [response.json(...)]; [Uncaught] carries a [KeyError] or [TypeError] of a
    subscript. *)
Inductive http_exn : Type :=
  | BestwayTokenInvalidException
  | BestwayUserDoesNotExistException
  | BestwayOfflineException
  | BestwayIncorrectPasswordException
  | ClientResponseError (status : Z)
  | JsonError
  | AttributeError
  | SessionError (code : Z)
  | Uncaught (e : exn).

(** The four exception classes declared in [api.py] below [BestwayException]. *)
Definition is_bestway_exception (e : http_exn) : bool :=
  match e with
  | BestwayTokenInvalidException | BestwayUserDoesNotExistException
  | BestwayOfflineException | BestwayIncorrectPasswordException => true
  | _ => false
  end.

(** [response.raise_for_status()] of aiohttp: raises for a response that is
    not [ok]. [None] is a normal return. *)
Definition raise_for_status (response : ClientResponse) : option http_exn :=
  if resp_ok response then None
  else Some (ClientResponseError (resp_status response)).

(** [_raise_for_status]. [None] is a normal return. When [response.json()]
    raises, [response.raise_for_status()] is called in the handler; the
    response is not [ok] there, so that call raises. *)
Definition _raise_for_status (response : ClientResponse) : option http_exn :=
  if resp_ok response then None
  else
    match resp_json response with
    | None => raise_for_status response
    | Some JOther => Some AttributeError
    | Some (JObject api_error) =>
        let error_code := default (VInt 0) (api_error !! "error_code") in
        if py_eq_int error_code 9004 then Some BestwayTokenInvalidException
        else if py_eq_int error_code 9005 then Some BestwayUserDoesNotExistException
        else if py_eq_int error_code 9042 then Some BestwayOfflineException
        else if py_eq_int error_code 9020 then Some BestwayIncorrectPasswordException
        else raise_for_status response
    end.

(** [_do_get], given what [session.get] did. *)
Definition _do_get (reply : http_exn + ClientResponse) : http_exn + json_doc :=
  match reply with
  | inl e => inl e
  | inr response =>
      match raise_for_status response with
      | Some e => inl e
      | None =>
          match resp_json_any response with
          | Some response_json => inr response_json
          | None => inl JsonError
          end
      end
  end.

(** [_do_post], given what [session.post] did. *)
Definition _do_post (reply : http_exn + ClientResponse) : http_exn + json_doc :=
  match reply with
  | inl e => inl e
  | inr response =>
      match _raise_for_status response with
      | Some e => inl e
      | None =>
          match resp_json_any response with
          | Some response_json => inr response_json
          | None => inl JsonError
          end
      end
  end.

(** Modelled from the spec: [BestwayUserToken], declared in [model.py]: the
    three positional arguments of its constructor call in [get_user_token]. *)
Record BestwayUserToken : Type := {
  user_id : value;
  user_token : value;
  expiry : value
}.

(** [get_user_token], given what [session.post] did for the login request.
    Subscripting a document that is not an object raises [TypeError]. *)
Definition get_user_token (reply : http_exn + ClientResponse)
    : http_exn + BestwayUserToken :=
  match reply with
  | inl e => inl e
  | inr response =>
      match _raise_for_status response with
      | Some e => inl e
      | None =>
          match resp_json response with
          | None => inl JsonError
          | Some JOther => inl (Uncaught TypeError)
          | Some (JObject api_data) =>
              match
                (uid ← getitem api_data "uid";
                 token ← getitem api_data "token";
                 expire_at ← getitem api_data "expire_at";
                 mret {| user_id := uid; user_token := token;
                         expiry := expire_at |})
              with
              | Ok t => inr t
              | Raise e => inl (Uncaught e)
              end
          end
      end
  end.

(** ** Bindings ([refresh_bindings]) *)

(** [d[k] = v] on a dict kept in insertion order: a key that is there keeps
    its place and takes the new value, a new key goes to the end. *)
Fixpoint dict_set {V} (d : list (string * V)) (k : string) (v : V)
    : list (string * V) :=
  match d with
  | [] => [(k, v)]
  | (k', v') :: rest =>
      if decide (k = k') then (k', v) :: rest
      else (k', v') :: dict_set rest k v
  end.

(** [d.get(k)] on such a dict. *)
Fixpoint dict_get {V} (d : list (string * V)) (k : string) : option V :=
  match d with
  | [] => None
  | (k', v') :: rest => if decide (k = k') then Some v' else dict_get rest k
  end.

(** [refresh_bindings], given the list [_get_devices] returned: the dict
    comprehension [{device.device_id: device for device in ...}]. *)
Definition refresh_bindings (devices : list BestwayDevice)
    : list (string * BestwayDevice) :=
  fold_left (fun d dev => dict_set d (device_id dev) dev) devices [].

(** ** More specification-side notions *)

Definition airjet_core_keys : list string :=
  ["power"; "temp_now"; "temp_set"; "temp_set_unit"; "heat_power";
   "heat_temp_reach"; "filter_power"; "wave_power"; "locked"; "earth"].

(** The attribute keys the current-firmware branch reads. *)
Definition airjet_required_keys : list string :=
  (system_err_key <$> seqZ 1 9) ++ airjet_core_keys.

Definition v01_core_keys : list string :=
  ["power"; "Tnow"; "Tset"; "Tunit"; "heat"; "filter"; "wave"].

(** The attribute keys the legacy branch reads. *)
Definition v01_required_keys : list string :=
  (v01_err_key <$> seqZ 1 31) ++ v01_core_keys.

(** The attribute keys the pool-filter branch reads. *)
Definition pool_required_keys : list string :=
  ["filter"; "power"; "time"; "status"; "error"].

(** The body of [response] is a JSON object whose [error_code] equals [n]. *)
Definition error_code_is (response : ClientResponse) (n : Z) : Prop :=
  exists d v, resp_json response = Some (JObject d) /\
    d !! "error_code" = Some v /\ as_number v = Some n.

(** The last device of a list that carries the id [did]. *)
Definition last_with_id (did : string) (devices : list BestwayDevice)
    : option BestwayDevice :=
  last (filter (fun dev => device_id dev = did) devices).

(** The run of one of the six spa command methods. *)
Inductive runs_spa_command (srv : server) (now : Z) (api : BestwayApi)
    (device_id : string) : result unit * BestwayApi -> Prop :=
  | runs_spa_set_power power :
      runs_spa_command srv now api device_id
        (spa_set_power srv now api device_id power)
  | runs_spa_set_heat heat :
      runs_spa_command srv now api device_id
        (spa_set_heat srv now api device_id heat)
  | runs_spa_set_filter filtering :
      runs_spa_command srv now api device_id
        (spa_set_filter srv now api device_id filtering)
  | runs_spa_set_locked is_locked :
      runs_spa_command srv now api device_id
        (spa_set_locked srv now api device_id is_locked)
  | runs_spa_set_bubbles bubbles :
      runs_spa_command srv now api device_id
        (spa_set_bubbles srv now api device_id bubbles)
  | runs_spa_set_target_temp target_temp :
      runs_spa_command srv now api device_id
        (spa_set_target_temp srv now api device_id target_temp).

(** The run of one of the two pool-filter command methods. *)
Inductive runs_pool_filter_command (srv : server) (now : Z) (api : BestwayApi)
    (device_id : string) : result unit * BestwayApi -> Prop :=
  | runs_pool_filter_set_power power :
      runs_pool_filter_command srv now api device_id
        (pool_filter_set_power srv now api device_id power)
  | runs_pool_filter_set_time hours :
      runs_pool_filter_command srv now api device_id
        (pool_filter_set_time srv now api device_id hours).

(** More sample data. *)
Definition v01_payload_heat_is_text : gmap string value :=
  <["heat" := VStr "on"]> (v01_payload (fun _ => VInt 0)).

Definition v01_status_E07_E20 : BestwaySpaDeviceStatus :=
  {| spa_cls := SpaDeviceV01Status; timestamp := 100; spa_power := VInt 1;
     temp_now := VInt 36; temp_set := VInt 38; temp_set_unit := CELSIUS;
     heat_power := true; heat_temp_reach := false; filter_power := true;
     wave_power := VInt 0; locked := VInt 0; errors := [7; 20];
     earth_fault := VInt 0 |}.

Definition v01_1 : BestwayDevice := device "v01" Airjet_V01.

(** A server whose answer for the legacy spa "v01" has a text [heat], and
    which cannot be reached for "gone". *)
Definition mixed_server : server :=
  {| do_get := fun did =>
       if bool_decide (did = "v01") then Ok (poll 150 v01_payload_heat_is_text)
       else if bool_decide (did = "gone") then Raise (UpstreamError 504)
       else Ok pool_poll;
     do_post := fun _ _ => Ok tt |}.

Definition three_bindings : list BestwayDevice :=
  [device "spa1" AIRJET_SPA; device "pump1" POOL_FILTER; device "spa1" Airjet_V01].

Definition offline_response : ClientResponse :=
  {| resp_ok := false; resp_status := 400;
     resp_json := Some (JObject {[ "error_code" := VInt 9042 ]});
     resp_json_any := Some (JObject {[ "error_code" := VInt 9042 ]}) |}.

Definition login_response : ClientResponse :=
  {| resp_ok := true; resp_status := 200;
     resp_json := Some (JObject (list_to_map
       [("uid", VStr "u1"); ("token", VStr "t1"); ("expire_at", VInt 99)]));
     resp_json_any := None |}.

(** * Properties *)

(** ** The error monad and lookups *)

Lemma bind_ok {A B} (m : result A) (f : A -> result B) (b : B) :
  (m ≫= f) = Ok b <-> exists a, m = Ok a /\ f a = Ok b.
Proof.
  destruct m as [a|e]; simpl.
  - split; [eauto | intros (a' & [= <-] & H); exact H].
  - split; [discriminate | intros (a' & [=] & _)].
Qed.

Lemma bind_raise {A B} (m : result A) (f : A -> result B) (e : exn) :
  (m ≫= f) = Raise e <-> m = Raise e \/ exists a, m = Ok a /\ f a = Raise e.
Proof.
  destruct m as [a|e']; simpl.
  - split; [eauto | intros [[=] | (a' & [= <-] & H)]; exact H].
  - split; [intros [= <-]; auto | intros [[= <-] | (a' & [=] & _)]; reflexivity].
Qed.

Lemma getitem_ok {A} (d : gmap string A) k v :
  getitem d k = Ok v <-> d !! k = Some v.
Proof. unfold getitem. destruct (d !! k); split; congruence. Qed.

Lemma getitem_raise {A} (d : gmap string A) k e :
  getitem d k = Raise e <-> d !! k = None /\ e = KeyError k.
Proof.
  unfold getitem. destruct (d !! k); split; try congruence.
  - intros [? _]; discriminate.
  - intros [= <-]; auto.
  - intros [_ ->]; reflexivity.
Qed.

Example fmt_int_samples : fmt_int 7 = "7" /\ fmt_int 31 = "31".
Proof. split; reflexivity. Qed.

Example err_key_samples :
  system_err_key 3 = "system_err3" /\ v01_err_key 5 = "E05" /\ v01_err_key 17 = "E17".
Proof. repeat split; reflexivity. Qed.

Example decode_samples :
  is_ok (decode_airjet_spa 100 (airjet_payload (fun _ => VInt 0))) = true /\
  is_ok (decode_airjet_v01 100 (v01_payload (fun _ => VInt 0))) = true /\
  is_ok (decode_pool_filter 100 pool_payload) = true.
Proof. repeat split; vm_compute; reflexivity. Qed.

(** ** The error-flag loop *)

Section ScanErrors.

Variable key : Z -> string.
Variable device_attrs : gmap string value.

Let present (n : Z) : Prop := is_Some (device_attrs !! key n).
Let active (n : Z) : Prop := flag_active key device_attrs n = true.

Lemma filter_active_cons (n : Z) (v : value) (errs nums : list Z) :
  device_attrs !! key n = Some v ->
  (if py_eq_int v 1 then errs ++ [n] else errs) ++ filter active nums
  = errs ++ filter active (n :: nums).
Proof.
  intros Hv. rewrite filter_cons.
  assert (flag_active key device_attrs n = py_eq_int v 1) as Hact
    by (unfold flag_active; by rewrite Hv).
  subst active. simpl.
  destruct (decide (flag_active key device_attrs n = true)) as [Ht|Hf];
    rewrite Hact in *; destruct (py_eq_int v 1); try done.
  by rewrite <- app_assoc.
Qed.

(** When the loop returns, every key it asked for was there, and it appended
    the numbers with an active flag, in the order it visited them. *)
Lemma scan_errors_ok nums : forall errs r,
  scan_errors key device_attrs errs nums = Ok r ->
  Forall present nums /\ r = errs ++ filter active nums.
Proof.
  induction nums as [|n nums IH]; intros errs r H; simpl in H.
  - injection H as <-. split; [constructor | by rewrite app_nil_r].
  - apply bind_ok in H as (v & Hv & H). apply getitem_ok in Hv.
    apply IH in H as [Hall ->]. split.
    + constructor; [by exists v | done].
    + by apply filter_active_cons.
Qed.

(** When every key is there, the loop returns. *)
Lemma scan_errors_present nums : forall errs,
  Forall present nums ->
  scan_errors key device_attrs errs nums = Ok (errs ++ filter active nums).
Proof.
  induction nums as [|n nums IH]; intros errs Hall; simpl.
  - by rewrite app_nil_r.
  - apply Forall_cons in Hall as [[v Hv] Hall].
    unfold getitem. rewrite Hv. simpl. rewrite IH by done.
    f_equal. by apply filter_active_cons.
Qed.

(** When a key is missing, the loop raises [KeyError] for the first one. *)
Lemma scan_errors_missing nums : forall errs,
  Exists (fun n => device_attrs !! key n = None) nums ->
  exists pre m post,
    nums = pre ++ m :: post /\ Forall present pre /\
    device_attrs !! key m = None /\
    scan_errors key device_attrs errs nums = Raise (KeyError (key m)).
Proof.
  induction nums as [|n nums IH]; intros errs Hex.
  - by apply Exists_nil in Hex.
  - destruct (device_attrs !! key n) as [v|] eqn:Hv.
    + apply Exists_cons in Hex as [Hn|Hex]; [congruence|].
      destruct (IH (if py_eq_int v 1 then errs ++ [n] else errs) Hex)
        as (pre & m & post & -> & Hpre & Hm & Hscan).
      exists (n :: pre), m, post. repeat split; try done.
      * constructor; [by exists v | done].
      * simpl. unfold getitem. rewrite Hv. simpl. exact Hscan.
    + exists [], n, nums. repeat split; try done.
      simpl. unfold getitem. by rewrite Hv.
Qed.

(** The loop raises nothing but [KeyError], and only for a missing key. *)
Lemma scan_errors_raise nums errs e :
  scan_errors key device_attrs errs nums = Raise e ->
  exists k, e = KeyError k /\ device_attrs !! k = None.
Proof.
  revert errs. induction nums as [|n nums IH]; intros errs H; simpl in H.
  - discriminate.
  - apply bind_raise in H as [H | (v & _ & H)].
    + apply getitem_raise in H as [Hk ->]. eauto.
    + eauto.
Qed.

End ScanErrors.

Lemma StronglySorted_filter {A} (R : relation A) (P : A -> Prop)
    `{!forall x, Decision (P x)} (l : list A) :
  StronglySorted R l -> StronglySorted R (filter P l).
Proof.
  induction 1 as [|x l Hl IH Hx]; [constructor|].
  rewrite filter_cons. destruct (decide (P x)); [|done].
  constructor; [done|].
  apply Forall_forall. intros y Hy. apply list_elem_of_filter in Hy as [_ Hy].
  rewrite Forall_forall in Hx. auto.
Qed.

Lemma seqZ_StronglySorted (m len : Z) : StronglySorted Z.lt (seqZ m len).
Proof.
  destruct (Z.le_gt_cases len 0) as [Hle|Hgt]; [rewrite seqZ_nil by lia; constructor|].
  rewrite <- (Z2Nat.id len) by lia. generalize (Z.to_nat len) as k. clear.
  intros k. revert m. induction k as [|k IH]; intros m.
  - rewrite seqZ_nil by lia. constructor.
  - rewrite seqZ_cons by lia. constructor.
    + replace (Z.pred (Z.of_nat (S k))) with (Z.of_nat k) by lia. apply IH.
    + apply Forall_forall. intros y Hy. apply elem_of_seqZ in Hy. lia.
Qed.

(** ** The decoders *)

Ltac bind_inv H :=
  repeat (apply bind_ok in H as (? & ? & H));
  unfold mret, result_ret in H; injection H as <-.

Ltac bind_raise_inv H :=
  repeat (apply bind_raise in H as [H | (? & _ & H)]); try discriminate H.

Lemma seqZ_1_9 : seqZ 1 9 = [1; 2; 3; 4; 5; 6; 7; 8; 9].
Proof. reflexivity. Qed.

Lemma decode_airjet_spa_ok ts device_attrs s :
  decode_airjet_spa ts device_attrs = Ok s ->
  spa_cls s = SpaDeviceStatus /\ timestamp s = ts /\
  errors s =
    filter (fun n => flag_active system_err_key device_attrs n = true) (seqZ 1 9).
Proof.
  intros H. unfold decode_airjet_spa in H.
  apply bind_ok in H as (errs & Herrs & H). bind_inv H. simpl.
  by apply scan_errors_ok in Herrs as [_ ->].
Qed.

Lemma decode_airjet_v01_ok ts device_attrs s :
  decode_airjet_v01 ts device_attrs = Ok s ->
  spa_cls s = SpaDeviceV01Status /\ timestamp s = ts /\
  errors s =
    filter (fun n => flag_active v01_err_key device_attrs n = true) (seqZ 1 31).
Proof.
  intros H. unfold decode_airjet_v01 in H.
  apply bind_ok in H as (errs & Herrs & H). bind_inv H. simpl.
  by apply scan_errors_ok in Herrs as [_ ->].
Qed.

Lemma decode_pool_filter_ok ts device_attrs p :
  decode_pool_filter ts device_attrs = Ok p -> pf_timestamp p = ts.
Proof. intros H. unfold decode_pool_filter in H. by bind_inv H. Qed.

(** The current-firmware and pool-filter decoders only compare with [==],
    so a missing key is all that can go wrong. *)
Lemma decode_airjet_spa_raise ts device_attrs e :
  decode_airjet_spa ts device_attrs = Raise e ->
  exists k, e = KeyError k /\ device_attrs !! k = None.
Proof.
  intros H. unfold decode_airjet_spa in H.
  apply bind_raise in H as [H | (? & _ & H)];
    [by apply scan_errors_raise in H|].
  bind_raise_inv H; apply getitem_raise in H as [? ->]; eauto.
Qed.

Lemma decode_pool_filter_raise ts device_attrs e :
  decode_pool_filter ts device_attrs = Raise e ->
  exists k, e = KeyError k /\ device_attrs !! k = None.
Proof.
  intros H. unfold decode_pool_filter in H.
  bind_raise_inv H; apply getitem_raise in H as [? ->]; eauto.
Qed.

(** The legacy decoder also orders values ([>], [>=]), which may raise
    [TypeError]. *)
Lemma decode_airjet_v01_raise ts device_attrs e :
  decode_airjet_v01 ts device_attrs = Raise e ->
  e = TypeError \/ exists k, e = KeyError k /\ device_attrs !! k = None.
Proof.
  intros H. unfold decode_airjet_v01 in H.
  apply bind_raise in H as [H | (? & _ & H)];
    [right; by apply scan_errors_raise in H|].
  bind_raise_inv H;
    first [ apply getitem_raise in H as [? ->]; by eauto
          | left; unfold py_gt_int, py_ge in H;
            repeat case_match; congruence ].
Qed.

(** A missing flag key makes either spa decoder raise [KeyError] for the
    first flag key, in ascending order of error number, that is missing. *)
Lemma missing_flag_raises (key : Z -> string) (device_attrs : gmap string value)
    (len n : Z) :
  1 <= n <= len -> device_attrs !! key n = None ->
  exists m, 1 <= m <= n /\ device_attrs !! key m = None /\
    scan_errors key device_attrs [] (seqZ 1 len) = Raise (KeyError (key m)).
Proof.
  intros Hn Hmiss.
  destruct (scan_errors_missing key device_attrs (seqZ 1 len) [])
    as (pre & m & post & Hsplit & Hpre & Hm & Hscan).
  { apply Exists_exists. exists n. split; [|done]. apply elem_of_seqZ. lia. }
  exists m. split; [|done].
  assert (m ∈ seqZ 1 len) as Hin
    by (rewrite Hsplit; apply elem_of_app; right; apply elem_of_cons; by left).
  apply elem_of_seqZ in Hin. split; [lia|].
  destruct (Z.le_gt_cases m n) as [|Hgt]; [done|]. exfalso.
  assert (n ∈ pre) as Hnpre.
  { assert (n ∈ seqZ 1 len) as Hnin by (apply elem_of_seqZ; lia).
    rewrite Hsplit in Hnin. apply elem_of_app in Hnin as [|Hnin]; [done|].
    apply elem_of_cons in Hnin as [->|Hnin]; [lia|].
    pose proof (seqZ_StronglySorted 1 len) as Hs. rewrite Hsplit in Hs.
    apply StronglySorted_app_1_r, StronglySorted_cons in Hs as [Hs _].
    rewrite Forall_forall in Hs. specialize (Hs n Hnin). lia. }
  rewrite Forall_forall in Hpre. destruct (Hpre n Hnpre) as [v Hv]. congruence.
Qed.

Lemma in_range_9 (n : Z) :
  1 <= n <= 9 ->
  n = 1 \/ n = 2 \/ n = 3 \/ n = 4 \/ n = 5 \/ n = 6 \/ n = 7 \/ n = 8 \/ n = 9.
Proof. lia. Qed.

(** The error list of a current-firmware payload whose nine flags are the
    integers [flag 1] .. [flag 9]. *)
Lemma airjet_errors_of_flags ts device_attrs s (flag : Z -> Z) :
  decode_airjet_spa ts device_attrs = Ok s ->
  (forall n, 1 <= n <= 9 ->
     device_attrs !! system_err_key n = Some (VInt (flag n))) ->
  errors s = filter (fun n => flag n = 1) (seqZ 1 9).
Proof.
  intros Hdec Hflags. apply decode_airjet_spa_ok in Hdec as (_ & _ & ->).
  assert (forall l, Forall (fun n => 1 <= n <= 9) l ->
    filter (fun n => flag_active system_err_key device_attrs n = true) l
    = filter (fun n => flag n = 1) l) as Hext.
  { induction 1 as [|n l Hn _ IH]; [done|].
    rewrite !filter_cons, IH. unfold flag_active. rewrite (Hflags n Hn).
    unfold py_eq_int. simpl.
    destruct (decide ((flag n =? 1) = true)), (decide (flag n = 1)); try done; lia. }
  apply Hext, Forall_forall. intros n Hn. apply elem_of_seqZ in Hn. lia.
Qed.

(** C8: for every current-firmware spa payload that decodes, the decoded list
    of active error codes is strictly ascending by error number and holds each
    number at most once; a payload with [system_err3 = 1] and every other flag
    [0] yields [[3]], and one with [system_err1 = 1], [system_err9 = 1] and the
    others [0] yields [[1; 9]]. *)
Theorem airjet_errors_strictly_ascending :
  (forall ts device_attrs s,
     decode_airjet_spa ts device_attrs = Ok s ->
     StronglySorted Z.lt (errors s) /\ NoDup (errors s)) /\
  (forall ts device_attrs s,
     decode_airjet_spa ts device_attrs = Ok s ->
     (forall n, 1 <= n <= 9 ->
        device_attrs !! system_err_key n = Some (VInt (if n =? 3 then 1 else 0))) ->
     errors s = [3]) /\
  (forall ts device_attrs s,
     decode_airjet_spa ts device_attrs = Ok s ->
     (forall n, 1 <= n <= 9 ->
        device_attrs !! system_err_key n
        = Some (VInt (if (n =? 1) || (n =? 9) then 1 else 0))) ->
     errors s = [1; 9]).
Proof.
  split; [|split].
  - intros ts device_attrs s Hdec.
    apply decode_airjet_spa_ok in Hdec as (_ & _ & ->). split.
    + apply StronglySorted_filter, seqZ_StronglySorted.
    + apply NoDup_filter, NoDup_seqZ.
  - intros ts device_attrs s Hdec Hflags.
    by rewrite (airjet_errors_of_flags _ _ _ _ Hdec Hflags).
  - intros ts device_attrs s Hdec Hflags.
    by rewrite (airjet_errors_of_flags _ _ _ _ Hdec Hflags).
Qed.

Lemma airjet_errors_strictly_ascending_witness :
  (exists s, decode_airjet_spa 100 airjet_payload_err3 = Ok s /\
     errors s = [3] /\ StronglySorted Z.lt (errors s) /\ NoDup (errors s)) /\
  (exists s, decode_airjet_spa 100 airjet_payload_err1_err9 = Ok s /\
     errors s = [1; 9]).
Proof.
  destruct airjet_errors_strictly_ascending as (Hsorted & H3 & H19). split.
  - eexists. split; [vm_compute; reflexivity|]. split; [|split].
    + eapply (H3 100 airjet_payload_err3); [vm_compute; reflexivity|].
      intros n Hn.
      destruct (in_range_9 n Hn) as [->|[->|[->|[->|[->|[->|[->|[->| ->]]]]]]]];
        vm_compute; reflexivity.
    + eapply (Hsorted 100 airjet_payload_err3). vm_compute; reflexivity.
    + eapply (Hsorted 100 airjet_payload_err3). vm_compute; reflexivity.
  - eexists. split; [vm_compute; reflexivity|].
    eapply (H19 100 airjet_payload_err1_err9); [vm_compute; reflexivity|].
    intros n Hn.
    destruct (in_range_9 n Hn) as [->|[->|[->|[->|[->|[->|[->|[->| ->]]]]]]]];
      vm_compute; reflexivity.
Defined.

(** C7 (as amended): for the legacy spa firmware family, an error number is in
    the decoded list exactly when it is between 1 and 31 and its flag
    attribute compares equal to [1]; for an integer flag value [z] that is
    exactly [z = 1], so the value [2] counts as inactive. *)
Theorem v01_error_flag_active_iff_one ts device_attrs s :
  decode_airjet_v01 ts device_attrs = Ok s ->
  (forall n, n ∈ errors s <->
     1 <= n <= 31 /\
     exists v, device_attrs !! v01_err_key n = Some v /\ py_eq_int v 1 = true) /\
  (forall n z, 1 <= n <= 31 ->
     device_attrs !! v01_err_key n = Some (VInt z) ->
     (n ∈ errors s <-> z = 1)).
Proof.
  intros Hdec. apply decode_airjet_v01_ok in Hdec as (_ & _ & Herrs).
  assert (forall n, n ∈ errors s <->
     1 <= n <= 31 /\
     exists v, device_attrs !! v01_err_key n = Some v /\ py_eq_int v 1 = true)
    as Hiff.
  { intros n. rewrite Herrs, list_elem_of_filter, elem_of_seqZ.
    unfold flag_active. split.
    - intros [Hact Hn]. split; [lia|].
      destruct (device_attrs !! v01_err_key n) as [v|]; [eauto | discriminate].
    - intros [Hn (v & -> & Hv)]. split; [done | lia]. }
  split; [exact Hiff|].
  intros n z Hn Hz. rewrite Hiff, Hz. split.
  - intros [_ (v & [= <-] & Hv)]. unfold py_eq_int in Hv. simpl in Hv.
    by apply Z.eqb_eq in Hv.
  - intros ->. split; [done|]. by exists (VInt 1).
Qed.

Lemma v01_error_flag_active_iff_one_witness :
  exists s, decode_airjet_v01 100 v01_payload_E03_is_2 = Ok s /\
    (3 ∈ errors s <-> 2 = 1).
Proof.
  eexists. split; [vm_compute; reflexivity|].
  eapply (v01_error_flag_active_iff_one 100 v01_payload_E03_is_2).
  - vm_compute; reflexivity.
  - lia.
  - vm_compute; reflexivity.
Defined.

(** C7 fails as stated: a legacy payload whose flag [E03] is [2] decodes, and
    [3] is not in its error list. *)
Lemma v01_flag_two_is_not_active :
  v01_payload_E03_is_2 !! "E03" = Some (VInt 2) /\
  exists s, decode_airjet_v01 100 v01_payload_E03_is_2 = Ok s /\ errors s = [].
Proof.
  split; [vm_compute; reflexivity|].
  eexists. split; vm_compute; reflexivity.
Qed.

(** C3 (as amended): in both spa firmware families a missing error-flag key
    is a hard decode failure. When a flag key of the family is missing,
    decoding raises [KeyError] for the missing flag key of lowest number. *)
Theorem missing_error_flag_fails_both_families ts device_attrs n :
  (1 <= n <= 31 -> device_attrs !! v01_err_key n = None ->
   exists m, 1 <= m <= n /\ device_attrs !! v01_err_key m = None /\
     decode_airjet_v01 ts device_attrs = Raise (KeyError (v01_err_key m))) /\
  (1 <= n <= 9 -> device_attrs !! system_err_key n = None ->
   exists m, 1 <= m <= n /\ device_attrs !! system_err_key m = None /\
     decode_airjet_spa ts device_attrs = Raise (KeyError (system_err_key m))).
Proof.
  split; intros Hn Hmiss.
  - destruct (missing_flag_raises v01_err_key device_attrs 31 n Hn Hmiss)
      as (m & Hm & Hnone & Hscan).
    exists m. repeat split; try done; try lia.
    unfold decode_airjet_v01. by rewrite Hscan.
  - destruct (missing_flag_raises system_err_key device_attrs 9 n Hn Hmiss)
      as (m & Hm & Hnone & Hscan).
    exists m. repeat split; try done; try lia.
    unfold decode_airjet_spa. by rewrite Hscan.
Qed.

Lemma missing_error_flag_fails_both_families_witness :
  (exists m, 1 <= m <= 5 /\ v01_payload_without_E05 !! v01_err_key m = None /\
     decode_airjet_v01 100 v01_payload_without_E05
     = Raise (KeyError (v01_err_key m))) /\
  (exists m, 1 <= m <= 5 /\
     airjet_payload_without_err5 !! system_err_key m = None /\
     decode_airjet_spa 100 airjet_payload_without_err5
     = Raise (KeyError (system_err_key m))).
Proof.
  split.
  - apply (proj1 (missing_error_flag_fails_both_families
                    100 v01_payload_without_E05 5));
      [lia | vm_compute; reflexivity].
  - apply (proj2 (missing_error_flag_fails_both_families
                    100 airjet_payload_without_err5 5));
      [lia | vm_compute; reflexivity].
Defined.

(** C3 fails as stated: a legacy payload that decodes when [E05] is there
    raises [KeyError] once [E05] is taken out. *)
Lemma v01_missing_flag_is_not_tolerated :
  is_ok (decode_airjet_v01 100 (v01_payload (fun _ => VInt 0))) = true /\
  v01_payload_without_E05 !! "E05" = None /\
  decode_airjet_v01 100 v01_payload_without_E05 = Raise (KeyError "E05").
Proof. repeat split; vm_compute; reflexivity. Qed.

(** ** The poll loop and the caches *)

Lemma decodes_to_timestamp ty data c :
  decodes_to ty data c -> status_timestamp c = updated_at data.
Proof.
  destruct 1 as [data s H|data s H|data p H]; simpl.
  - by apply decode_airjet_spa_ok in H as (_ & ? & _).
  - by apply decode_airjet_v01_ok in H as (_ & ? & _).
  - by apply decode_pool_filter_ok in H.
Qed.

Lemma cached_state_store_spa api did s :
  cached_state (store_spa api did s) did = Some (SpaStatus s).
Proof. unfold cached_state, store_spa. simpl. by rewrite lookup_insert_eq. Qed.

Lemma cached_state_store_pool_filter api did p :
  spa_state_cache api !! did = None ->
  cached_state (store_pool_filter api did p) did = Some (PoolFilterStatus p).
Proof.
  intros Hnone. unfold cached_state, store_pool_filter. simpl.
  by rewrite Hnone, lookup_insert_eq.
Qed.

Lemma cached_state_store_unknown api did did' dump :
  cached_state (store_unknown api did dump) did' = cached_state api did'.
Proof. reflexivity. Qed.

Lemma local_update_timestamp_cached api did c :
  cached_state api did = Some c ->
  local_update_timestamp api did = status_timestamp c.
Proof. intros H. unfold local_update_timestamp. by rewrite H. Qed.

Section Cache.

Variable json_dumps : gmap string value -> string.

Lemma decode_and_store_raise api did device_info data e :
  decode_and_store json_dumps api did device_info data = Raise e <->
  decode_raises (device_type device_info) data e.
Proof.
  unfold decode_and_store. split.
  - destruct (device_type device_info); intros H;
      try (apply bind_raise in H as [H | (? & _ & H)]; [|discriminate H]);
      try discriminate H; by constructor.
  - destruct 1 as [data e H|data e H|data e H]; by rewrite H.
Qed.

(** Once the timestamp checks have let a poll through, the outcome is that
    of the [try] body. *)
Lemma fetch_device_fresh api did device_info data :
  updated_at data <> 0 ->
  local_update_timestamp api did <= updated_at data ->
  fetch_device json_dumps api did device_info data
  = match decode_and_store json_dumps api did device_info data with
    | Ok api' => (Ok Stored, api')
    | Raise (KeyError key) => (Ok (MissingKey key), api)
    | Raise e => (Raise e, api)
    end.
Proof.
  intros Hnz Hle. unfold fetch_device.
  destruct (Z.eqb_spec (updated_at data) 0) as [|_]; [done|].
  by destruct (Z.ltb_spec (updated_at data) (local_update_timestamp api did));
    [lia|].
Qed.

Lemma fetch_device_stale api did device_info data :
  updated_at data <> 0 ->
  updated_at data < local_update_timestamp api did ->
  fetch_device json_dumps api did device_info data = (Ok IgnoredStale, api).
Proof.
  intros Hnz Hlt. unfold fetch_device.
  destruct (Z.eqb_spec (updated_at data) 0) as [|_]; [done|].
  by destruct (Z.ltb_spec (updated_at data) (local_update_timestamp api did));
    [|lia].
Qed.

(** An exception of the loop body leaves the caches as they were. *)
Lemma fetch_device_raise api did device_info data e api' :
  fetch_device json_dumps api did device_info data = (Raise e, api') ->
  api' = api.
Proof.
  unfold fetch_device. repeat case_match; congruence.
Qed.

(** The loop over a list that continues after a first part that ran through. *)
Lemma fetch_data_app srv pre : forall api0 log0 api post,
  fetch_data json_dumps srv api0 pre = (log0, Ok tt, api) ->
  fetch_data json_dumps srv api0 (pre ++ post)
  = let '(log1, r, api1) := fetch_data json_dumps srv api post in
    (log0 ++ log1, r, api1).
Proof.
  induction pre as [|[did device_info] pre IH]; intros api0 log0 api post H.
  - simpl in H. injection H as <- <-. simpl.
    by destruct (fetch_data json_dumps srv api0 post) as [[? ?] ?].
  - simpl in *. destruct (do_get srv did) as [data|e]; [|discriminate H].
    destruct (fetch_device json_dumps api0 did device_info data) as [[o|e] api0'];
      [|discriminate H].
    destruct (fetch_data json_dumps srv api0' pre) as [[log r] apim] eqn:Hpre.
    injection H as <- -> ->. rewrite (IH _ _ _ post Hpre).
    by destruct (fetch_data json_dumps srv api post) as [[? ?] ?].
Qed.

(** C4: for every device, a poll response whose [updated_at] is exactly [0]
    changes nothing: the loop body logs "no data" and leaves all three caches
    as they were, so the cached record of the device, if any, is still what a
    later read returns. *)
Theorem offline_poll_keeps_cache api did device_info data :
  updated_at data = 0 ->
  fetch_device json_dumps api did device_info data = (Ok NoData, api) /\
  cached_state
    (snd (fetch_device json_dumps api did device_info data)) did
  = cached_state api did.
Proof.
  intros Hz. unfold fetch_device. rewrite Hz. simpl. done.
Qed.

(** C1: for a device id with a cached status record [old], a poll whose
    timestamp is nonzero and whose payload decodes to the candidate [cand]
    (a status of the same cache as [old]) leaves [cand] as the cached record
    if and only if the timestamp of the poll is greater than or equal to the
    timestamp of [old]; when it is strictly less, the poll is ignored as
    stale and the cached record still is [old]. *)
Theorem poll_replaces_iff_not_older api did device_info data old cand :
  cached_state api did = Some old ->
  updated_at data <> 0 ->
  decodes_to (device_type device_info) data cand ->
  same_cache old cand ->
  (cached_state (snd (fetch_device json_dumps api did device_info data)) did
   = Some cand
   <-> status_timestamp old <= updated_at data) /\
  (updated_at data < status_timestamp old ->
   fetch_device json_dumps api did device_info data = (Ok IgnoredStale, api) /\
   cached_state (snd (fetch_device json_dumps api did device_info data)) did
   = Some old).
Proof.
  intros Hold Hnz Hdec Hsame.
  pose proof (local_update_timestamp_cached _ _ _ Hold) as Hlocal.
  pose proof (decodes_to_timestamp _ _ _ Hdec) as Hts.
  destruct (Z.lt_ge_cases (updated_at data) (status_timestamp old)) as [Hlt|Hge].
  - rewrite fetch_device_stale by lia. simpl. split.
    + split; [|lia]. rewrite Hold. intros [= ->]. lia.
    + done.
  - split; [|lia]. split; [done|]. intros _.
    rewrite fetch_device_fresh by lia. unfold decode_and_store.
    destruct Hdec as [data s H|data s H|data p H]; rewrite H; simpl;
      try apply cached_state_store_spa.
    apply cached_state_store_pool_filter.
    destruct old as [s|q]; [done|]. unfold cached_state in Hold.
    by destruct (spa_state_cache api !! did).
Qed.

(** C6: when the payload of a device of known type is let through by the
    timestamp checks and decoding it raises [KeyError], nothing is stored for
    that device: the loop body logs the missing key and leaves all caches as
    they were. The poll cycle goes on: the devices after it are processed
    exactly as a loop over them alone, started from the same caches. *)
Theorem missing_key_skips_only_that_device
    srv api0 pre log0 api did device_info data key rest :
  fetch_data json_dumps srv api0 pre = (log0, Ok tt, api) ->
  do_get srv did = Ok data ->
  updated_at data <> 0 ->
  local_update_timestamp api did <= updated_at data ->
  decode_raises (device_type device_info) data (KeyError key) ->
  fetch_device json_dumps api did device_info data = (Ok (MissingKey key), api) /\
  fetch_data json_dumps srv api0 (pre ++ (did, device_info) :: rest)
  = let '(log1, r, api1) := fetch_data json_dumps srv api rest in
    (log0 ++ (did, MissingKey key) :: log1, r, api1).
Proof.
  intros Hpre Hget Hnz Hfresh Hraise.
  assert (fetch_device json_dumps api did device_info data
          = (Ok (MissingKey key), api)) as Hstep.
  { rewrite fetch_device_fresh by done.
    apply (decode_and_store_raise api did) in Hraise. by rewrite Hraise. }
  split; [done|].
  rewrite (fetch_data_app _ _ _ _ _ _ Hpre). simpl. rewrite Hget, Hstep.
  by destruct (fetch_data json_dumps srv api rest) as [[? ?] ?].
Qed.

(** C9 (as amended): when the loop body stores something for a device, a spa
    or pool-filter status is stored with the [updated_at] of the poll as its
    timestamp; for a device of unknown type only the serialized attributes
    are stored, with no timestamp. *)
Theorem stored_status_timestamp api did device_info data api' :
  fetch_device json_dumps api did device_info data = (Ok Stored, api') ->
  match device_type device_info with
  | AIRJET_SPA | Airjet_V01 =>
      exists s, spa_state_cache api' !! did = Some s /\
        timestamp s = updated_at data
  | POOL_FILTER =>
      exists p, pool_filter_state_cache api' !! did = Some p /\
        pf_timestamp p = updated_at data
  | UNKNOWN =>
      unknown_states api' !! did = Some (json_dumps (attr data))
  end.
Proof.
  unfold fetch_device. intros H.
  destruct (updated_at data =? 0); [discriminate H|].
  destruct (updated_at data <? local_update_timestamp api did);
    [discriminate H|].
  destruct (decode_and_store json_dumps api did device_info data)
    as [api1|e] eqn:Hstore; [|destruct e; discriminate H].
  injection H as <-. unfold decode_and_store in Hstore.
  destruct (device_type device_info).
  - apply bind_ok in Hstore as (s & Hs & [= <-]). exists s. simpl.
    rewrite lookup_insert_eq. by apply decode_airjet_spa_ok in Hs as (_ & ? & _).
  - apply bind_ok in Hstore as (s & Hs & [= <-]). exists s. simpl.
    rewrite lookup_insert_eq. by apply decode_airjet_v01_ok in Hs as (_ & ? & _).
  - apply bind_ok in Hstore as (p & Hp & [= <-]). exists p. simpl.
    rewrite lookup_insert_eq. by apply decode_pool_filter_ok in Hp.
  - injection Hstore as <-. simpl. by rewrite lookup_insert_eq.
Qed.

(** C10: a device of unknown type with nothing in the spa and pool-filter
    caches never gets a timestamp there, so a poll with a nonzero [updated_at]
    (epoch seconds, so not negative) always overwrites the stored dump; a
    second poll does so even when its [updated_at] is strictly smaller than
    that of the poll stored before. *)
Theorem unknown_device_never_stale api did device_info data1 data2 :
  device_type device_info = UNKNOWN ->
  cached_state api did = None ->
  0 <= updated_at data1 -> updated_at data1 <> 0 ->
  0 <= updated_at data2 -> updated_at data2 <> 0 ->
  updated_at data2 < updated_at data1 ->
  let api1 := store_unknown api did (json_dumps (attr data1)) in
  let api2 := store_unknown api1 did (json_dumps (attr data2)) in
  fetch_device json_dumps api did device_info data1 = (Ok Stored, api1) /\
  local_update_timestamp api1 did = 0 /\
  fetch_device json_dumps api1 did device_info data2 = (Ok Stored, api2) /\
  unknown_states api2 !! did = Some (json_dumps (attr data2)).
Proof.
  intros Hty Hnone Hpos1 Hnz1 Hpos2 Hnz2 Hlt api1 api2.
  assert (forall a d, cached_state a did = None -> 0 <= updated_at d ->
            updated_at d <> 0 ->
            fetch_device json_dumps a did device_info d
            = (Ok Stored, store_unknown a did (json_dumps (attr d)))) as Hstep.
  { intros a d Ha Hpos Hnz. rewrite fetch_device_fresh; try done.
    - unfold decode_and_store. by rewrite Hty.
    - unfold local_update_timestamp. by rewrite Ha. }
  assert (cached_state api1 did = None) as Hnone1 by done.
  repeat split.
  - by apply Hstep.
  - unfold local_update_timestamp. by rewrite Hnone1.
  - by apply Hstep.
  - simpl. by rewrite lookup_insert_eq.
Qed.

End Cache.

Lemma offline_poll_keeps_cache_witness :
  fetch_device sample_dumps sample_api "spa1" spa1 offline_poll
  = (Ok NoData, sample_api) /\
  cached_state
    (snd (fetch_device sample_dumps sample_api "spa1" spa1 offline_poll)) "spa1"
  = cached_state sample_api "spa1".
Proof.
  apply (offline_poll_keeps_cache sample_dumps sample_api "spa1" spa1 offline_poll).
  reflexivity.
Defined.

Lemma poll_replaces_iff_not_older_witness :
  ((cached_state
      (snd (fetch_device sample_dumps sample_api "spa1" spa1 fresh_airjet_poll))
      "spa1"
    = Some (SpaStatus fresh_airjet_status)
    <-> status_timestamp (SpaStatus sample_spa) <= updated_at fresh_airjet_poll) /\
   (updated_at fresh_airjet_poll < status_timestamp (SpaStatus sample_spa) ->
    fetch_device sample_dumps sample_api "spa1" spa1 fresh_airjet_poll
    = (Ok IgnoredStale, sample_api) /\
    cached_state
      (snd (fetch_device sample_dumps sample_api "spa1" spa1 fresh_airjet_poll))
      "spa1"
    = Some (SpaStatus sample_spa))) /\
  status_timestamp (SpaStatus sample_spa) <= updated_at fresh_airjet_poll.
Proof.
  split; [|vm_compute; discriminate].
  apply (poll_replaces_iff_not_older sample_dumps sample_api "spa1" spa1
           fresh_airjet_poll (SpaStatus sample_spa) (SpaStatus fresh_airjet_status)).
  - vm_compute; reflexivity.
  - vm_compute; discriminate.
  - apply decodes_airjet. vm_compute; reflexivity.
  - exact I.
Defined.

Lemma missing_key_skips_only_that_device_witness :
  fetch_device sample_dumps sample_api "spa1" spa1 broken_airjet_poll
  = (Ok (MissingKey "system_err5"), sample_api) /\
  fetch_data sample_dumps sample_server sample_api
    ([] ++ ("spa1", spa1) :: [("pump1", pump1)])
  = let '(log1, r, api1) :=
      fetch_data sample_dumps sample_server sample_api [("pump1", pump1)] in
    ([] ++ ("spa1", MissingKey "system_err5") :: log1, r, api1).
Proof.
  apply (missing_key_skips_only_that_device sample_dumps sample_server
           sample_api [] [] sample_api "spa1" spa1 broken_airjet_poll
           "system_err5" [("pump1", pump1)]).
  - reflexivity.
  - reflexivity.
  - vm_compute; discriminate.
  - vm_compute; discriminate.
  - apply raises_airjet. vm_compute; reflexivity.
Defined.

(** The cycle of the example above does reach the pump after the spa. *)
Example poll_cycle_after_missing_key :
  fetch_data sample_dumps sample_server sample_api
    [("spa1", spa1); ("pump1", pump1)]
  = ([("spa1", MissingKey "system_err5"); ("pump1", Stored)], Ok tt,
     store_pool_filter sample_api "pump1"
       {| pf_timestamp := 150; pf_filter := false; pf_power := true;
          pf_time := VInt 4; pf_status := true; pf_error := false |}).
Proof. vm_compute; reflexivity. Qed.

Lemma stored_status_timestamp_witness :
  exists s,
    spa_state_cache (store_spa sample_api "spa1" fresh_airjet_status) !! "spa1"
    = Some s /\
    timestamp s = updated_at fresh_airjet_poll.
Proof.
  apply (stored_status_timestamp sample_dumps sample_api "spa1" spa1
           fresh_airjet_poll (store_spa sample_api "spa1" fresh_airjet_status)).
  vm_compute; reflexivity.
Defined.

(** C9 fails as stated: two polls of a device of unknown type that differ
    only in [updated_at] leave the same caches behind, so the stored entry
    does not tell which poll produced it. *)
Lemma unknown_entry_carries_no_timestamp :
  fetch_device sample_dumps empty_api "x1" x1 (poll 5 pool_payload)
  = (Ok Stored, store_unknown empty_api "x1" (sample_dumps pool_payload)) /\
  fetch_device sample_dumps empty_api "x1" x1 (poll 7 pool_payload)
  = (Ok Stored, store_unknown empty_api "x1" (sample_dumps pool_payload)) /\
  ~ exists timestamp_of : string -> Z,
      forall data api' dump,
        fetch_device sample_dumps empty_api "x1" x1 data = (Ok Stored, api') ->
        unknown_states api' !! "x1" = Some dump ->
        timestamp_of dump = updated_at data.
Proof.
  assert (fetch_device sample_dumps empty_api "x1" x1 (poll 5 pool_payload)
          = (Ok Stored, store_unknown empty_api "x1" (sample_dumps pool_payload)))
    as H5 by (vm_compute; reflexivity).
  assert (fetch_device sample_dumps empty_api "x1" x1 (poll 7 pool_payload)
          = (Ok Stored, store_unknown empty_api "x1" (sample_dumps pool_payload)))
    as H7 by (vm_compute; reflexivity).
  split; [done | split; [done|]].
  intros [timestamp_of Hts].
  assert (unknown_states
            (store_unknown empty_api "x1" (sample_dumps pool_payload)) !! "x1"
          = Some (sample_dumps pool_payload)) as Hdump
    by (simpl; apply lookup_insert_eq).
  pose proof (Hts _ _ _ H5 Hdump) as E5.
  pose proof (Hts _ _ _ H7 Hdump) as E7.
  simpl in E5, E7. congruence.
Qed.

Lemma unknown_device_never_stale_witness :
  let api1 := store_unknown sample_api "x1" (sample_dumps (attr (poll 200 pool_payload))) in
  let api2 := store_unknown api1 "x1" (sample_dumps (attr (poll 100 ∅))) in
  fetch_device sample_dumps sample_api "x1" x1 (poll 200 pool_payload)
  = (Ok Stored, api1) /\
  local_update_timestamp api1 "x1" = 0 /\
  fetch_device sample_dumps api1 "x1" x1 (poll 100 ∅) = (Ok Stored, api2) /\
  unknown_states api2 !! "x1" = Some (sample_dumps (attr (poll 100 ∅))).
Proof.
  apply (unknown_device_never_stale sample_dumps sample_api "x1" x1
           (poll 200 pool_payload) (poll 100 ∅)).
  - reflexivity.
  - vm_compute; reflexivity.
  - vm_compute; discriminate.
  - vm_compute; discriminate.
  - vm_compute; discriminate.
  - vm_compute; discriminate.
  - vm_compute; reflexivity.
Defined.

(** ** Commands *)

Section Commands.

Variable srv : server.
Variable now : Z.
Variable api : BestwayApi.
Variable device_id : string.

Ltac failed_write :=
  intros [c Hc] Hpost;
  match goal with |- ?cmd _ _ _ _ _ = _ => unfold cmd end;
  rewrite Hc, Hpost; reflexivity.

(** C2: for each of the eight command methods, on a device with a cached
    record, when the upstream write raises, the method raises the same
    exception and the caches are exactly what they were: no field of the
    cached record, its timestamp included, has changed. *)
Theorem failed_write_keeps_cache (e : exn) :
  (forall power,
     is_Some (spa_state_cache api !! device_id) ->
     do_post srv device_id ("power", flag_int power) = Raise e ->
     spa_set_power srv now api device_id power = (Raise e, api)) /\
  (forall heat,
     is_Some (spa_state_cache api !! device_id) ->
     do_post srv device_id ("heat_power", flag_int heat) = Raise e ->
     spa_set_heat srv now api device_id heat = (Raise e, api)) /\
  (forall filtering,
     is_Some (spa_state_cache api !! device_id) ->
     do_post srv device_id ("filter_power", flag_int filtering) = Raise e ->
     spa_set_filter srv now api device_id filtering = (Raise e, api)) /\
  (forall is_locked,
     is_Some (spa_state_cache api !! device_id) ->
     do_post srv device_id ("locked", flag_int is_locked) = Raise e ->
     spa_set_locked srv now api device_id is_locked = (Raise e, api)) /\
  (forall bubbles,
     is_Some (spa_state_cache api !! device_id) ->
     do_post srv device_id ("wave_power", flag_int bubbles) = Raise e ->
     spa_set_bubbles srv now api device_id bubbles = (Raise e, api)) /\
  (forall target_temp,
     is_Some (spa_state_cache api !! device_id) ->
     do_post srv device_id ("temp_set", VInt target_temp) = Raise e ->
     spa_set_target_temp srv now api device_id target_temp = (Raise e, api)) /\
  (forall power,
     is_Some (pool_filter_state_cache api !! device_id) ->
     do_post srv device_id ("power", flag_int power) = Raise e ->
     pool_filter_set_power srv now api device_id power = (Raise e, api)) /\
  (forall hours,
     is_Some (pool_filter_state_cache api !! device_id) ->
     do_post srv device_id ("time", VInt hours) = Raise e ->
     pool_filter_set_time srv now api device_id hours = (Raise e, api)).
Proof.
  repeat split; intros ?; failed_write.
Qed.

(** C5: for a spa with a cached record, after a power-off command whose
    upstream write succeeds, the cached record of the device has power,
    filter, heat and bubbles all off, whatever they were before. *)
Theorem spa_power_off_turns_all_off (old : BestwaySpaDeviceStatus) :
  spa_state_cache api !! device_id = Some old ->
  do_post srv device_id ("power", flag_int false) = Ok tt ->
  exists api' c,
    spa_set_power srv now api device_id false = (Ok tt, api') /\
    spa_state_cache api' !! device_id = Some c /\
    spa_power c = VBool false /\ filter_power c = false /\
    heat_power c = false /\ wave_power c = VBool false.
Proof.
  intros Hold Hpost. unfold spa_set_power. rewrite Hold, Hpost. simpl.
  eexists _, _. split; [reflexivity|]. split; [apply lookup_insert_eq|].
  by repeat split.
Qed.

(** A command that raises, for whatever reason, has changed nothing. *)
Lemma spa_set_power_raise power e api' :
  spa_set_power srv now api device_id power = (Raise e, api') -> api' = api.
Proof. unfold spa_set_power. repeat case_match; congruence. Qed.

(** Heat on also turns power and the filter pump on. *)
Lemma spa_heat_on_turns_power_and_filter_on (old : BestwaySpaDeviceStatus) :
  spa_state_cache api !! device_id = Some old ->
  do_post srv device_id ("heat_power", flag_int true) = Ok tt ->
  exists api' c,
    spa_set_heat srv now api device_id true = (Ok tt, api') /\
    spa_state_cache api' !! device_id = Some c /\
    heat_power c = true /\ spa_power c = VBool true /\ filter_power c = true /\
    timestamp c = now.
Proof.
  intros Hold Hpost. unfold spa_set_heat. rewrite Hold, Hpost. simpl.
  eexists _, _. split; [reflexivity|]. split; [apply lookup_insert_eq|].
  by repeat split.
Qed.

End Commands.

Lemma failed_write_keeps_cache_witness :
  spa_set_power (failing_server 9042) 200 sample_api "spa1" false
  = (Raise (UpstreamError 9042), sample_api) /\
  spa_set_heat (failing_server 9042) 200 sample_api "spa1" true
  = (Raise (UpstreamError 9042), sample_api) /\
  spa_set_filter (failing_server 9042) 200 sample_api "spa1" false
  = (Raise (UpstreamError 9042), sample_api) /\
  spa_set_locked (failing_server 9042) 200 sample_api "spa1" true
  = (Raise (UpstreamError 9042), sample_api) /\
  spa_set_bubbles (failing_server 9042) 200 sample_api "spa1" true
  = (Raise (UpstreamError 9042), sample_api) /\
  spa_set_target_temp (failing_server 9042) 200 sample_api "spa1" 40
  = (Raise (UpstreamError 9042), sample_api) /\
  pool_filter_set_power (failing_server 9042) 200 sample_api "pump1" false
  = (Raise (UpstreamError 9042), sample_api) /\
  pool_filter_set_time (failing_server 9042) 200 sample_api "pump1" 6
  = (Raise (UpstreamError 9042), sample_api).
Proof.
  pose proof (failed_write_keeps_cache (failing_server 9042) 200 sample_api
                "spa1" (UpstreamError 9042))
    as (Hpower & Hheat & Hfilter & Hlocked & Hbubbles & Htemp & _ & _).
  pose proof (failed_write_keeps_cache (failing_server 9042) 200 sample_api
                "pump1" (UpstreamError 9042))
    as (_ & _ & _ & _ & _ & _ & Hpump & Htime).
  assert (is_Some (spa_state_cache sample_api !! "spa1")) as Hspa
    by (exists sample_spa; vm_compute; reflexivity).
  assert (is_Some (pool_filter_state_cache sample_api !! "pump1")) as Hpool
    by (exists sample_pool; vm_compute; reflexivity).
  split; [apply Hpower; [exact Hspa | reflexivity]|].
  split; [apply Hheat; [exact Hspa | reflexivity]|].
  split; [apply Hfilter; [exact Hspa | reflexivity]|].
  split; [apply Hlocked; [exact Hspa | reflexivity]|].
  split; [apply Hbubbles; [exact Hspa | reflexivity]|].
  split; [apply Htemp; [exact Hspa | reflexivity]|].
  split; [apply Hpump; [exact Hpool | reflexivity]|].
  apply Htime; [exact Hpool | reflexivity].
Defined.

Lemma spa_power_off_turns_all_off_witness :
  exists api' c,
    spa_set_power (steady_server offline_poll) 200 sample_api "spa1" false
    = (Ok tt, api') /\
    spa_state_cache api' !! "spa1" = Some c /\
    spa_power c = VBool false /\ filter_power c = false /\
    heat_power c = false /\ wave_power c = VBool false.
Proof.
  apply (spa_power_off_turns_all_off (steady_server offline_poll) 200
           sample_api "spa1" sample_spa).
  - vm_compute; reflexivity.
  - reflexivity.
Defined.

(** The scenario of the spec: a poll at [100] stores the spa; "filter off" at
    wall-clock [150] stamps it and turns filter, bubbles and heat off; a later
    poll still at [100] is ignored as stale and the command's state stays. *)
Example command_wins_over_stale_poll :
  let srv := steady_server (poll 100 (airjet_payload (fun _ => VInt 0))) in
  let '(_, api1) := fetch_device sample_dumps empty_api "spa1" spa1
                      (poll 100 (airjet_payload (fun _ => VInt 0))) in
  let '(_, api2) := spa_set_filter srv 150 api1 "spa1" false in
  let '(o, api3) := fetch_device sample_dumps api2 "spa1" spa1
                      (poll 100 (airjet_payload (fun _ => VInt 0))) in
  o = Ok IgnoredStale /\ api3 = api2 /\
  (filter_power <$> spa_state_cache api3 !! "spa1") = Some false /\
  (heat_power <$> spa_state_cache api3 !! "spa1") = Some false /\
  (wave_power <$> spa_state_cache api3 !! "spa1") = Some (VBool false) /\
  (timestamp <$> spa_state_cache api3 !! "spa1") = Some 150.
Proof. vm_compute. repeat split; reflexivity. Qed.

(** * Further properties of the code *)

(** ** What the decoders need and read *)

Lemma bind_ext {A B} (m m' : result A) (f g : A -> result B) :
  m = m' -> (forall a, f a = g a) -> (m ≫= f) = (m' ≫= g).
Proof. intros <- Hfg. destruct m; simpl; [apply Hfg | done]. Qed.

Lemma getitem_is_Some {A} (d : gmap string A) k :
  is_Some (d !! k) <-> exists v, getitem d k = Ok v.
Proof.
  split; intros [v Hv]; exists v; by apply getitem_ok.
Qed.

Lemma scan_errors_agree key (attrs attrs' : gmap string value) nums :
  (forall n, n ∈ nums -> attrs !! key n = attrs' !! key n) ->
  forall errs, scan_errors key attrs errs nums = scan_errors key attrs' errs nums.
Proof.
  induction nums as [|n nums IH]; intros Hagree errs; [done|]. simpl.
  apply bind_ext.
  - unfold getitem. rewrite (Hagree n) by (by left). done.
  - intros v. apply IH. intros m Hm. apply Hagree. by right.
Qed.

Ltac key_in_list := apply (bool_decide_unpack _); vm_compute; exact I.

Ltac present_key :=
  match goal with
  | H : getitem ?d ?k = Ok ?v |- is_Some (?d !! ?k) =>
      exists v; by apply getitem_ok
  end.

Ltac next_item :=
  match goal with
  | H : ?d !! ?k = Some ?v |- context [getitem ?d ?k] =>
      rewrite (proj2 (getitem_ok d k v) H); cbn [mbind result_bind]
  end.

(** The current-firmware decoder returns a status exactly when the nineteen
    keys it reads are all in the payload; the values do not matter. *)
Theorem decode_airjet_spa_succeeds_iff ts (device_attrs : gmap string value) :
  is_ok (decode_airjet_spa ts device_attrs) = true <->
  Forall (fun k => is_Some (device_attrs !! k)) airjet_required_keys.
Proof.
  unfold airjet_required_keys. rewrite Forall_app, Forall_fmap. split.
  - destruct (decode_airjet_spa ts device_attrs) as [s|e] eqn:H; [|discriminate].
    intros _. unfold decode_airjet_spa in H.
    apply bind_ok in H as (errs & Herrs & H).
    apply scan_errors_ok in Herrs as [Hflags _].
    repeat (apply bind_ok in H as (? & ? & H)).
    split; [exact Hflags|]. unfold airjet_core_keys.
    repeat (apply Forall_cons; split; [present_key|]). constructor.
  - intros [Hflags Hcore]. unfold decode_airjet_spa.
    rewrite (scan_errors_present _ _ _ [] Hflags). cbn [mbind result_bind].
    unfold airjet_core_keys in Hcore.
    repeat (apply Forall_cons in Hcore as [[? ?] Hcore]).
    by repeat next_item.
Qed.

(** The pool-filter decoder returns a status exactly when its five keys are
    all in the payload. *)
Theorem decode_pool_filter_succeeds_iff ts (device_attrs : gmap string value) :
  is_ok (decode_pool_filter ts device_attrs) = true <->
  Forall (fun k => is_Some (device_attrs !! k)) pool_required_keys.
Proof.
  unfold pool_required_keys. split.
  - destruct (decode_pool_filter ts device_attrs) as [p|e] eqn:H; [|discriminate].
    intros _. unfold decode_pool_filter in H.
    repeat (apply bind_ok in H as (? & ? & H)).
    repeat (apply Forall_cons; split; [present_key|]). constructor.
  - intros Hkeys. unfold decode_pool_filter.
    repeat (apply Forall_cons in Hkeys as [[? ?] Hkeys]).
    by repeat next_item.
Qed.

(** The legacy decoder returns a status exactly when its thirty-eight keys
    are all in the payload, [heat] and [filter] are numbers, and [Tnow] and
    [Tset] can be ordered (two numbers or two strings). *)
Theorem decode_airjet_v01_succeeds_iff ts (device_attrs : gmap string value) :
  is_ok (decode_airjet_v01 ts device_attrs) = true <->
  Forall (fun k => is_Some (device_attrs !! k)) v01_required_keys /\
  exists heat filter Tnow Tset,
    device_attrs !! "heat" = Some heat /\
    device_attrs !! "filter" = Some filter /\
    device_attrs !! "Tnow" = Some Tnow /\
    device_attrs !! "Tset" = Some Tset /\
    is_Some (as_number heat) /\ is_Some (as_number filter) /\
    is_ok (py_ge Tnow Tset) = true.
Proof.
  unfold v01_required_keys. rewrite Forall_app, Forall_fmap. split.
  - destruct (decode_airjet_v01 ts device_attrs) as [s|e] eqn:H; [|discriminate].
    intros _. unfold decode_airjet_v01 in H.
    apply bind_ok in H as (errs & Herrs & H).
    apply scan_errors_ok in Herrs as [Hflags _].
    apply bind_ok in H as (power & Hpower & H).
    apply bind_ok in H as (Tnow & HTnow & H).
    apply bind_ok in H as (Tset & HTset & H).
    apply bind_ok in H as (Tunit & HTunit & H).
    apply bind_ok in H as (heat & Hheat & H).
    apply bind_ok in H as (heat_on & Hheat_on & H).
    apply bind_ok in H as (Tnow' & HTnow' & H).
    apply bind_ok in H as (Tset' & HTset' & H).
    apply bind_ok in H as (reached & Hreached & H).
    apply bind_ok in H as (filter & Hfilter & H).
    apply bind_ok in H as (filter_on & Hfilter_on & H).
    apply bind_ok in H as (wave & Hwave & H).
    split.
    + split; [exact Hflags|]. unfold v01_core_keys.
      repeat (apply Forall_cons; split; [present_key|]). constructor.
    + exists heat, filter, Tnow', Tset'.
      apply getitem_ok in Hheat, Hfilter, HTnow', HTset'.
      repeat split; try done.
      * unfold py_gt_int in Hheat_on. by destruct (as_number heat).
      * unfold py_gt_int in Hfilter_on. by destruct (as_number filter).
      * by rewrite Hreached.
  - intros [[Hflags Hcore]
      (heat & filter & Tnow & Tset & Hheat & Hfilter & HTnow & HTset
       & [h Hh] & [f Hf] & Hge)].
    unfold decode_airjet_v01.
    rewrite (scan_errors_present _ _ _ [] Hflags). cbn [mbind result_bind].
    unfold v01_core_keys in Hcore.
    apply Forall_cons in Hcore as [[power Hpower] Hcore].
    do 2 (apply Forall_cons in Hcore as [_ Hcore]).
    apply Forall_cons in Hcore as [[Tunit HTunit] Hcore].
    do 2 (apply Forall_cons in Hcore as [_ Hcore]).
    apply Forall_cons in Hcore as [[wave Hwave] _].
    repeat next_item. unfold py_gt_int. rewrite Hh, Hf.
    cbn [mbind result_bind].
    by destruct (py_ge Tnow Tset) as [reached|].
Qed.

Ltac agree_on_keys Hagree :=
  repeat (apply bind_ext;
          [ first [ reflexivity
                  | unfold getitem; rewrite Hagree by key_in_list; reflexivity ]
          | intros ? ]);
  reflexivity.

(** The decoders read nothing but their required keys: two payloads that
    agree on those keys decode alike (to the same status or the same
    exception), whatever else they hold. *)
Theorem decoders_read_only_required_keys ts (attrs attrs' : gmap string value) :
  ((forall k, k ∈ airjet_required_keys -> attrs !! k = attrs' !! k) ->
   decode_airjet_spa ts attrs = decode_airjet_spa ts attrs') /\
  ((forall k, k ∈ v01_required_keys -> attrs !! k = attrs' !! k) ->
   decode_airjet_v01 ts attrs = decode_airjet_v01 ts attrs') /\
  ((forall k, k ∈ pool_required_keys -> attrs !! k = attrs' !! k) ->
   decode_pool_filter ts attrs = decode_pool_filter ts attrs').
Proof.
  split; [|split]; intros Hagree.
  - unfold decode_airjet_spa. apply bind_ext.
    + apply scan_errors_agree. intros n Hn. apply Hagree.
      unfold airjet_required_keys. apply elem_of_app. left.
      by apply list_elem_of_fmap_2.
    + intros errs. agree_on_keys Hagree.
  - unfold decode_airjet_v01. apply bind_ext.
    + apply scan_errors_agree. intros n Hn. apply Hagree.
      unfold v01_required_keys. apply elem_of_app. left.
      by apply list_elem_of_fmap_2.
    + intros errs. agree_on_keys Hagree.
  - unfold decode_pool_filter. agree_on_keys Hagree.
Qed.

Lemma decoders_read_only_required_keys_witness :
  decode_airjet_spa 100 (airjet_payload (fun _ => VInt 0))
  = decode_airjet_spa 100 (<["rssi" := VInt 7]> (airjet_payload (fun _ => VInt 0))) /\
  decode_airjet_v01 100 (v01_payload (fun _ => VInt 0))
  = decode_airjet_v01 100 (<["rssi" := VInt 7]> (v01_payload (fun _ => VInt 0))) /\
  decode_pool_filter 100 pool_payload
  = decode_pool_filter 100 (<["rssi" := VInt 7]> pool_payload).
Proof.
  assert (forall (keys : list string) (d : gmap string value),
            bool_decide ("rssi" ∉ keys) = true ->
            forall k, k ∈ keys -> d !! k = <["rssi" := VInt 7]> d !! k) as Hextra.
  { intros keys d Hnot k Hk. apply bool_decide_eq_true in Hnot.
    rewrite lookup_insert_ne; [done|]. by intros <-. }
  split; [|split].
  - apply (proj1 (decoders_read_only_required_keys 100 _ _)).
    apply Hextra. vm_compute; reflexivity.
  - apply (proj1 (proj2 (decoders_read_only_required_keys 100 _ _))).
    apply Hextra. vm_compute; reflexivity.
  - apply (proj2 (proj2 (decoders_read_only_required_keys 100 _ _))).
    apply Hextra. vm_compute; reflexivity.
Defined.

(** The error list of a legacy status is strictly ascending, without
    repetition, and holds numbers from 1 to 31 only; that of a
    current-firmware status holds numbers from 1 to 9 only. *)
Theorem error_numbers_in_range ts (device_attrs : gmap string value) s :
  (decode_airjet_v01 ts device_attrs = Ok s ->
   StronglySorted Z.lt (errors s) /\ NoDup (errors s) /\
   Forall (fun n => 1 <= n <= 31) (errors s)) /\
  (decode_airjet_spa ts device_attrs = Ok s ->
   Forall (fun n => 1 <= n <= 9) (errors s)).
Proof.
  split; intros Hdec.
  - apply decode_airjet_v01_ok in Hdec as (_ & _ & ->). repeat split.
    + apply StronglySorted_filter, seqZ_StronglySorted.
    + apply NoDup_filter, NoDup_seqZ.
    + apply Forall_forall. intros n Hn.
      apply list_elem_of_filter in Hn as [_ Hn]. apply elem_of_seqZ in Hn. lia.
  - apply decode_airjet_spa_ok in Hdec as (_ & _ & ->).
    apply Forall_forall. intros n Hn.
    apply list_elem_of_filter in Hn as [_ Hn]. apply elem_of_seqZ in Hn. lia.
Qed.

Lemma error_numbers_in_range_witness :
  errors v01_status_E07_E20 = [7; 20] /\
  StronglySorted Z.lt (errors v01_status_E07_E20) /\
  NoDup (errors v01_status_E07_E20) /\
  Forall (fun n => 1 <= n <= 31) (errors v01_status_E07_E20) /\
  Forall (fun n => 1 <= n <= 9) (errors fresh_airjet_status).
Proof.
  split; [reflexivity|].
  pose proof (proj1 (error_numbers_in_range 100
    (v01_payload (fun n => VInt (if (n =? 7) || (n =? 20) then 1 else 0)))
    v01_status_E07_E20)) as Hv01.
  pose proof (proj2 (error_numbers_in_range 150
    (airjet_payload (fun _ => VInt 0)) fresh_airjet_status)) as Hairjet.
  destruct Hv01 as (Hsorted & Hnodup & Hrange); [vm_compute; reflexivity|].
  split; [exact Hsorted|]. split; [exact Hnodup|]. split; [exact Hrange|].
  apply Hairjet. vm_compute; reflexivity.
Defined.

(** What the legacy decoder derives: for integer temperatures the heater
    counts as having reached its target exactly when [Tnow >= Tset]; the
    heater and the filter pump are on exactly when their attribute is above
    [0]; the panel lock and the earth fault are always [0]. *)
Theorem v01_derived_fields ts (device_attrs : gmap string value) s tnow tset h f :
  decode_airjet_v01 ts device_attrs = Ok s ->
  device_attrs !! "Tnow" = Some (VInt tnow) ->
  device_attrs !! "Tset" = Some (VInt tset) ->
  device_attrs !! "heat" = Some (VInt h) ->
  device_attrs !! "filter" = Some (VInt f) ->
  (heat_temp_reach s = true <-> tset <= tnow) /\
  (heat_power s = true <-> 0 < h) /\
  (filter_power s = true <-> 0 < f) /\
  locked s = VInt 0 /\ earth_fault s = VInt 0.
Proof.
  intros H HTnow HTset Hheat Hfilter. unfold decode_airjet_v01 in H.
  apply bind_ok in H as (errs & _ & H).
  apply bind_ok in H as (power & _ & H).
  apply bind_ok in H as (Tnow & _ & H).
  apply bind_ok in H as (Tset & _ & H).
  apply bind_ok in H as (Tunit & _ & H).
  apply bind_ok in H as (heat & Hheat' & H).
  apply bind_ok in H as (heat_on & Hheat_on & H).
  apply bind_ok in H as (Tnow' & HTnow' & H).
  apply bind_ok in H as (Tset' & HTset' & H).
  apply bind_ok in H as (reached & Hreached & H).
  apply bind_ok in H as (filter & Hfilter' & H).
  apply bind_ok in H as (filter_on & Hfilter_on & H).
  apply bind_ok in H as (wave & _ & H).
  injection H as <-. simpl.
  apply getitem_ok in Hheat', HTnow', HTset', Hfilter'.
  rewrite Hheat in Hheat'. rewrite HTnow in HTnow'. rewrite HTset in HTset'.
  rewrite Hfilter in Hfilter'.
  injection Hheat' as <-. injection HTnow' as <-. injection HTset' as <-.
  injection Hfilter' as <-.
  injection Hheat_on as <-. injection Hreached as <-. injection Hfilter_on as <-.
  repeat split; try done; try apply Z.leb_le; try apply Z.ltb_lt.
Qed.

Lemma v01_derived_fields_witness :
  (heat_temp_reach v01_status_E07_E20 = true <-> 38 <= 36) /\
  (heat_power v01_status_E07_E20 = true <-> 0 < 3) /\
  (filter_power v01_status_E07_E20 = true <-> 0 < 2) /\
  locked v01_status_E07_E20 = VInt 0 /\ earth_fault v01_status_E07_E20 = VInt 0.
Proof.
  apply (v01_derived_fields 100
    (v01_payload (fun n => VInt (if (n =? 7) || (n =? 20) then 1 else 0)))
    v01_status_E07_E20 36 38 3 2); vm_compute; reflexivity.
Defined.

(** The token mappings: a current-firmware status is in Celsius exactly when
    [temp_set_unit] is the string "摄氏", a legacy status exactly when
    [Tunit] equals [1], and a pool filter is running exactly when [status] is
    the string "运行中"; every other value gives Fahrenheit, respectively
    stopped, and never an error. *)
Theorem token_mappings ts (device_attrs : gmap string value) :
  (forall s, decode_airjet_spa ts device_attrs = Ok s ->
     (temp_set_unit s = CELSIUS <->
      device_attrs !! "temp_set_unit" = Some (VStr "摄氏")) /\
     (temp_set_unit s = FAHRENHEIT <->
      device_attrs !! "temp_set_unit" <> Some (VStr "摄氏"))) /\
  (forall s, decode_airjet_v01 ts device_attrs = Ok s ->
     (temp_set_unit s = CELSIUS <->
      exists v, device_attrs !! "Tunit" = Some v /\ as_number v = Some 1)) /\
  (forall p, decode_pool_filter ts device_attrs = Ok p ->
     (pf_status p = true <->
      device_attrs !! "status" = Some (VStr "运行中"))).
Proof.
  split; [|split].
  - intros s H. unfold decode_airjet_spa in H.
    apply bind_ok in H as (errs & _ & H).
    apply bind_ok in H as (power & _ & H).
    apply bind_ok in H as (temp_now & _ & H).
    apply bind_ok in H as (temp_set & _ & H).
    apply bind_ok in H as (unit & Hunit & H).
    bind_inv H. simpl. apply getitem_ok in Hunit. rewrite Hunit.
    unfold py_eq_str. destruct unit as [|b|z|t]; try (split; split; congruence).
    destruct (bool_decide_reflect (t = "摄氏")) as [->|Hne].
    + split; split; congruence.
    + split; split; congruence.
  - intros s H. unfold decode_airjet_v01 in H.
    apply bind_ok in H as (errs & _ & H).
    apply bind_ok in H as (power & _ & H).
    apply bind_ok in H as (Tnow & _ & H).
    apply bind_ok in H as (Tset & _ & H).
    apply bind_ok in H as (Tunit & HTunit & H).
    bind_inv H. simpl. apply getitem_ok in HTunit. unfold py_eq_int. split.
    + intros Hc. exists Tunit. split; [done|].
      destruct (as_number Tunit) as [z|]; [|done].
      destruct (Z.eqb_spec z 1); [by subst | done].
    + intros (v & Hv & Hone). rewrite HTunit in Hv. injection Hv as <-.
      by rewrite Hone.
  - intros p H. unfold decode_pool_filter in H.
    apply bind_ok in H as (filter & _ & H).
    apply bind_ok in H as (power & _ & H).
    apply bind_ok in H as (time & _ & H).
    apply bind_ok in H as (status & Hstatus & H).
    bind_inv H. simpl. apply getitem_ok in Hstatus. rewrite Hstatus.
    unfold py_eq_str. destruct status as [|b|z|t]; try (split; congruence).
    destruct (bool_decide_reflect (t = "运行中")) as [->|Hne];
      split; congruence.
Qed.

Lemma token_mappings_witness :
  (temp_set_unit fresh_airjet_status = CELSIUS <->
   airjet_payload (fun _ => VInt 0) !! "temp_set_unit" = Some (VStr "摄氏")) /\
  (pf_status sample_pool = true <->
   pool_payload !! "status" = Some (VStr "运行中")).
Proof.
  destruct (token_mappings 150 (airjet_payload (fun _ => VInt 0)))
    as (Hairjet & _ & _).
  destruct (token_mappings 100 pool_payload) as (_ & _ & Hpool).
  split.
  - apply (Hairjet fresh_airjet_status). vm_compute; reflexivity.
  - apply (Hpool sample_pool). vm_compute; reflexivity.
Defined.

(** ** The poll loop as a whole *)

Lemma store_spa_twice api did s s' :
  store_spa (store_spa api did s) did s' = store_spa api did s'.
Proof. unfold store_spa. simpl. by rewrite insert_insert_eq. Qed.

Lemma store_pool_filter_twice api did p p' :
  store_pool_filter (store_pool_filter api did p) did p'
  = store_pool_filter api did p'.
Proof. unfold store_pool_filter. simpl. by rewrite insert_insert_eq. Qed.

Lemma store_unknown_twice api did d d' :
  store_unknown (store_unknown api did d) did d' = store_unknown api did d'.
Proof. unfold store_unknown. simpl. by rewrite insert_insert_eq. Qed.

Lemma local_update_timestamp_store_spa api did s :
  local_update_timestamp (store_spa api did s) did = timestamp s.
Proof.
  unfold local_update_timestamp. by rewrite cached_state_store_spa.
Qed.

Lemma local_update_timestamp_store_pool_filter api did p :
  local_update_timestamp (store_pool_filter api did p) did
  = match spa_state_cache api !! did with
    | Some s => timestamp s
    | None => pf_timestamp p
    end.
Proof.
  unfold local_update_timestamp, cached_state, store_pool_filter. simpl.
  destruct (spa_state_cache api !! did); [done|]. by rewrite lookup_insert_eq.
Qed.

Lemma local_update_timestamp_other api api' did :
  spa_state_cache api' !! did = spa_state_cache api !! did ->
  pool_filter_state_cache api' !! did = pool_filter_state_cache api !! did ->
  local_update_timestamp api' did = local_update_timestamp api did.
Proof.
  intros Hspa Hpool. unfold local_update_timestamp, cached_state.
  by rewrite Hspa, Hpool.
Qed.

Section PollLoop.

Variable json_dumps : gmap string value -> string.

(** What a pass through the [try] body leaves behind. *)
Lemma decode_and_store_ok api did device_info data api' :
  decode_and_store json_dumps api did device_info data = Ok api' ->
  (exists s, timestamp s = updated_at data /\ api' = store_spa api did s) \/
  (exists p, pf_timestamp p = updated_at data /\
     api' = store_pool_filter api did p) \/
  api' = store_unknown api did (json_dumps (attr data)).
Proof.
  unfold decode_and_store. intros H. destruct (device_type device_info).
  - apply bind_ok in H as (s & Hs & [= <-]). left. exists s. split; [|done].
    by apply decode_airjet_spa_ok in Hs as (_ & ? & _).
  - apply bind_ok in H as (s & Hs & [= <-]). left. exists s. split; [|done].
    by apply decode_airjet_v01_ok in Hs as (_ & ? & _).
  - apply bind_ok in H as (p & Hp & [= <-]). right. left. exists p.
    split; [|done]. by apply decode_pool_filter_ok in Hp.
  - injection H as <-. by right; right.
Qed.

(** Decoding does not look at the caches. *)
Lemma decode_and_store_again api did device_info data api' :
  decode_and_store json_dumps api did device_info data = Ok api' ->
  decode_and_store json_dumps api' did device_info data = Ok api'.
Proof.
  unfold decode_and_store. intros H. destruct (device_type device_info).
  - apply bind_ok in H as (s & Hs & [= <-]). rewrite Hs. simpl.
    by rewrite store_spa_twice.
  - apply bind_ok in H as (s & Hs & [= <-]). rewrite Hs. simpl.
    by rewrite store_spa_twice.
  - apply bind_ok in H as (p & Hp & [= <-]). rewrite Hp. simpl.
    by rewrite store_pool_filter_twice.
  - injection H as <-. unfold mret, result_ret.
    by rewrite store_unknown_twice.
Qed.

(** The loop body either leaves the caches alone or, for a poll that is not
    older than the cached timestamp, stores one entry under [did]. *)
Lemma fetch_device_cases api did device_info data :
  let api' := snd (fetch_device json_dumps api did device_info data) in
  api' = api \/
  (local_update_timestamp api did <= updated_at data /\
   decode_and_store json_dumps api did device_info data = Ok api').
Proof.
  unfold fetch_device.
  destruct (updated_at data =? 0); [by left|].
  destruct (Z.ltb_spec (updated_at data) (local_update_timestamp api did));
    [by left|].
  destruct (decode_and_store json_dumps api did device_info data) as [api1|e];
    [by right|].
  destruct e; by left.
Qed.

(** Polling is idempotent: the same response handed to the loop body a second
    time, right after the first, gives the same outcome and the same caches. *)
Theorem fetch_device_idempotent api did device_info data :
  fetch_device json_dumps
    (snd (fetch_device json_dumps api did device_info data)) did device_info data
  = fetch_device json_dumps api did device_info data.
Proof.
  unfold fetch_device at 2 3.
  destruct (Z.eqb_spec (updated_at data) 0) as [Hz|Hnz].
  { simpl. unfold fetch_device. by rewrite Hz. }
  destruct (Z.ltb_spec (updated_at data) (local_update_timestamp api did))
    as [Hlt|Hge].
  { simpl. by rewrite fetch_device_stale. }
  destruct (decode_and_store json_dumps api did device_info data)
    as [api1|e] eqn:Hstore.
  - simpl. rewrite fetch_device_fresh; [|done|].
    + by rewrite (decode_and_store_again _ _ _ _ _ Hstore).
    + destruct (decode_and_store_ok _ _ _ _ _ Hstore)
        as [(s & Hs & ->)|[(p & Hp & ->)| ->]].
      * rewrite local_update_timestamp_store_spa. lia.
      * rewrite local_update_timestamp_store_pool_filter.
        unfold local_update_timestamp, cached_state in Hge.
        destruct (spa_state_cache api !! did); [done | lia].
      * done.
  - assert (snd (match e with
                 | KeyError key => (Ok (MissingKey key), api)
                 | _ => (Raise e, api)
                 end) = api) as -> by (by destruct e).
    rewrite fetch_device_fresh by done. by rewrite Hstore.
Qed.

(** The timestamp used for arbitration never goes backwards in a poll, for
    the polled device or any other. *)
Lemma fetch_device_timestamp_mono api did device_info data did' :
  local_update_timestamp api did'
  <= local_update_timestamp
       (snd (fetch_device json_dumps api did device_info data)) did'.
Proof.
  destruct (fetch_device_cases api did device_info data) as [->|[Hge Hstore]];
    [done|].
  destruct (decode_and_store_ok _ _ _ _ _ Hstore)
    as [(s & Hs & ->)|[(p & Hp & ->)| ->]].
  - destruct (decide (did' = did)) as [->|Hne].
    + rewrite local_update_timestamp_store_spa. lia.
    + rewrite (local_update_timestamp_other api (store_spa api did s));
        [done| |done].
      simpl. by rewrite lookup_insert_ne.
  - destruct (decide (did' = did)) as [->|Hne].
    + rewrite local_update_timestamp_store_pool_filter.
      unfold local_update_timestamp, cached_state in *.
      destruct (spa_state_cache api !! did); [done | lia].
    + rewrite (local_update_timestamp_other api (store_pool_filter api did p));
        [done|done|].
      simpl. by rewrite lookup_insert_ne.
  - done.
Qed.

(** Over a whole [fetch_data], however it ends, the arbitration timestamp of
    no device id goes backwards. *)
Theorem fetch_data_timestamp_mono srv devices : forall api did',
  local_update_timestamp api did'
  <= local_update_timestamp (snd (fetch_data json_dumps srv api devices)) did'.
Proof.
  induction devices as [|[did device_info] rest IH]; intros api did'; simpl.
  - done.
  - destruct (do_get srv did) as [data|e]; [|done].
    pose proof (fetch_device_timestamp_mono api did device_info data did') as H1.
    destruct (fetch_device json_dumps api did device_info data) as [[o|e] api1].
    + specialize (IH api1 did').
      destruct (fetch_data json_dumps srv api1 rest) as [[log r] api2].
      simpl in *. lia.
    + done.
Qed.

(** [fetch_data] touches only the ids it is given: for any other id the three
    caches hold what they held before, however the cycle ends. *)
Theorem fetch_data_only_touches_polled_devices srv devices : forall api did',
  did' ∉ (fst <$> devices) ->
  let api' := snd (fetch_data json_dumps srv api devices) in
  spa_state_cache api' !! did' = spa_state_cache api !! did' /\
  pool_filter_state_cache api' !! did' = pool_filter_state_cache api !! did' /\
  unknown_states api' !! did' = unknown_states api !! did'.
Proof.
  induction devices as [|[did device_info] rest IH]; intros api did' Hnot; simpl.
  - done.
  - apply not_elem_of_cons in Hnot as [Hne Hnot]. simpl in Hne.
    destruct (do_get srv did) as [data|e]; [|done].
    assert (let api1 := snd (fetch_device json_dumps api did device_info data) in
            spa_state_cache api1 !! did' = spa_state_cache api !! did' /\
            pool_filter_state_cache api1 !! did'
            = pool_filter_state_cache api !! did' /\
            unknown_states api1 !! did' = unknown_states api !! did') as Hstep.
    { destruct (fetch_device_cases api did device_info data) as [->|[_ Hstore]];
        [done|].
      destruct (decode_and_store_ok _ _ _ _ _ Hstore)
        as [(s & _ & ->)|[(p & _ & ->)| ->]]; simpl;
        by rewrite lookup_insert_ne. }
    destruct (fetch_device json_dumps api did device_info data) as [[o|e] api1].
    + specialize (IH api1 did' Hnot).
      destruct (fetch_data json_dumps srv api1 rest) as [[log r] api2].
      simpl in *. destruct IH as (-> & -> & ->). exact Hstep.
    + exact Hstep.
Qed.

(** [fetch_data] never removes a record: an id with an entry in one of the
    caches still has an entry there afterwards. *)
Theorem fetch_data_keeps_records srv devices : forall api did',
  let api' := snd (fetch_data json_dumps srv api devices) in
  (is_Some (spa_state_cache api !! did') ->
   is_Some (spa_state_cache api' !! did')) /\
  (is_Some (pool_filter_state_cache api !! did') ->
   is_Some (pool_filter_state_cache api' !! did')) /\
  (is_Some (unknown_states api !! did') ->
   is_Some (unknown_states api' !! did')).
Proof.
  induction devices as [|[did device_info] rest IH]; intros api did'; simpl.
  - done.
  - destruct (do_get srv did) as [data|e]; [|done].
    assert (let api1 := snd (fetch_device json_dumps api did device_info data) in
            (is_Some (spa_state_cache api !! did') ->
             is_Some (spa_state_cache api1 !! did')) /\
            (is_Some (pool_filter_state_cache api !! did') ->
             is_Some (pool_filter_state_cache api1 !! did')) /\
            (is_Some (unknown_states api !! did') ->
             is_Some (unknown_states api1 !! did'))) as Hstep.
    { destruct (fetch_device_cases api did device_info data) as [->|[_ Hstore]];
        [done|].
      destruct (decode_and_store_ok _ _ _ _ _ Hstore)
        as [(s & _ & ->)|[(p & _ & ->)| ->]]; simpl;
        repeat split; try done; intros ?; apply lookup_insert_is_Some';
        by right. }
    destruct (fetch_device json_dumps api did device_info data) as [[o|e] api1].
    + specialize (IH api1 did').
      destruct (fetch_data json_dumps srv api1 rest) as [[log r] api2].
      simpl in *. destruct IH as (I1 & I2 & I3). destruct Hstep as (S1 & S2 & S3).
      repeat split; auto.
    + exact Hstep.
Qed.

End PollLoop.

Section PollLoopEnds.

Variable json_dumps : gmap string value -> string.

(** Only the legacy decoder can raise [TypeError]. *)
Lemma decode_raises_type_error ty data :
  decode_raises ty data TypeError -> ty = Airjet_V01.
Proof.
  intros H. inversion H as [d e Hd|d e Hd|d e Hd]; subst; [|done|].
  - apply decode_airjet_spa_raise in Hd as (k & Hk & _). discriminate Hk.
  - apply decode_pool_filter_raise in Hd as (k & Hk & _). discriminate Hk.
Qed.

(** A [TypeError] while decoding is not caught: it ends the whole poll cycle.
    The devices before it keep what was stored for them, the device and all
    devices after it are not processed, and [fetch_data] raises. Only a
    legacy spa payload can do this. *)
Theorem type_error_aborts_cycle
    srv api0 pre log0 api did device_info data rest :
  fetch_data json_dumps srv api0 pre = (log0, Ok tt, api) ->
  do_get srv did = Ok data ->
  updated_at data <> 0 ->
  local_update_timestamp api did <= updated_at data ->
  decode_raises (device_type device_info) data TypeError ->
  device_type device_info = Airjet_V01 /\
  fetch_data json_dumps srv api0 (pre ++ (did, device_info) :: rest)
  = (log0, Raise TypeError, api).
Proof.
  intros Hpre Hget Hnz Hfresh Hraise.
  split; [by apply decode_raises_type_error in Hraise|].
  rewrite (fetch_data_app _ _ _ _ _ _ _ Hpre). simpl. rewrite Hget.
  rewrite fetch_device_fresh by done.
  apply (decode_and_store_raise json_dumps api did) in Hraise.
  rewrite Hraise. by rewrite app_nil_r.
Qed.

(** A failing [_do_get] ends the poll cycle the same way: what was stored for
    the devices before stays, nothing after is processed, and [fetch_data]
    raises what [_do_get] raised. *)
Theorem get_failure_aborts_cycle
    srv api0 pre log0 api did device_info e rest :
  fetch_data json_dumps srv api0 pre = (log0, Ok tt, api) ->
  do_get srv did = Raise e ->
  fetch_data json_dumps srv api0 (pre ++ (did, device_info) :: rest)
  = (log0, Raise e, api).
Proof.
  intros Hpre Hget.
  rewrite (fetch_data_app _ _ _ _ _ _ _ Hpre). simpl. rewrite Hget.
  by rewrite app_nil_r.
Qed.

(** The log of [fetch_data] lists the device ids in dict order up to where the
    cycle ended: all of them exactly when [fetch_data] returns, and a proper
    initial part of them when it raises. *)
Theorem fetch_data_log_is_prefix srv devices : forall api,
  let '(log, r, _) := fetch_data json_dumps srv api devices in
  exists rest,
    fst <$> devices = (fst <$> log) ++ rest /\
    (r = Ok tt <-> rest = []).
Proof.
  induction devices as [|[did device_info] rest IH]; intros api; simpl.
  - by exists [].
  - destruct (do_get srv did) as [data|e].
    + destruct (fetch_device json_dumps api did device_info data)
        as [[o|e] api1].
      * specialize (IH api1).
        destruct (fetch_data json_dumps srv api1 rest) as [[log r] api2].
        destruct IH as (rest' & Heq & Hiff). exists rest'.
        split; [|exact Hiff]. change (did :: (fst <$> rest)
          = did :: ((fst <$> log) ++ rest')). by rewrite Heq.
      * exists (did :: (fst <$> rest)). by split.
    + exists (did :: (fst <$> rest)). by split.
Qed.

(** The first poll of a device, with nothing cached for it, stores something
    exactly when [updated_at] is above [0] and the [try] body runs through;
    a negative [updated_at] is ignored as stale against the default [0]. *)
Theorem first_poll_stored_iff api did device_info data :
  cached_state api did = None ->
  (fst (fetch_device json_dumps api did device_info data) = Ok Stored <->
   0 < updated_at data /\
   is_ok (decode_and_store json_dumps api did device_info data) = true) /\
  (updated_at data < 0 ->
   fetch_device json_dumps api did device_info data = (Ok IgnoredStale, api)).
Proof.
  intros Hnone.
  assert (local_update_timestamp api did = 0) as Hlocal
    by (unfold local_update_timestamp; by rewrite Hnone).
  split.
  - unfold fetch_device. rewrite Hlocal.
    destruct (Z.eqb_spec (updated_at data) 0) as [Hz|Hnz];
      [split; [done | lia]|].
    destruct (Z.ltb_spec (updated_at data) 0) as [Hlt|Hge];
      [split; [done | lia]|].
    destruct (decode_and_store json_dumps api did device_info data) as [api1|e].
    + simpl. split; [intros _; split; [lia | done] | done].
    + destruct e; simpl; split; try done; by intros [_ ?].
  - intros Hneg. apply fetch_device_stale; lia.
Qed.

End PollLoopEnds.

Lemma decode_airjet_spa_succeeds_iff_witness :
  is_ok (decode_airjet_spa 100 (airjet_payload (fun _ => VInt 0))) = true /\
  is_ok (decode_airjet_spa 100 airjet_payload_without_err5) = false.
Proof.
  split.
  - apply (decode_airjet_spa_succeeds_iff 100 (airjet_payload (fun _ => VInt 0))).
    apply (bool_decide_unpack _). vm_compute; exact I.
  - apply not_true_is_false. intros H.
    apply (decode_airjet_spa_succeeds_iff 100 airjet_payload_without_err5) in H.
    revert H. apply (bool_decide_unpack (~ _)). vm_compute; exact I.
Defined.

Lemma decode_pool_filter_succeeds_iff_witness :
  is_ok (decode_pool_filter 100 pool_payload) = true /\
  is_ok (decode_pool_filter 100 (delete "time" pool_payload)) = false.
Proof.
  split.
  - apply (decode_pool_filter_succeeds_iff 100 pool_payload).
    apply (bool_decide_unpack _). vm_compute; exact I.
  - apply not_true_is_false. intros H.
    apply (decode_pool_filter_succeeds_iff 100 (delete "time" pool_payload)) in H.
    revert H. apply (bool_decide_unpack (~ _)). vm_compute; exact I.
Defined.

Lemma decode_airjet_v01_succeeds_iff_witness :
  is_ok (decode_airjet_v01 100 (v01_payload (fun _ => VInt 0))) = true /\
  is_ok (decode_airjet_v01 100 v01_payload_heat_is_text) = false.
Proof.
  split.
  - apply (decode_airjet_v01_succeeds_iff 100 (v01_payload (fun _ => VInt 0))).
    split; [apply (bool_decide_unpack _); vm_compute; exact I|].
    exists (VInt 3), (VInt 2), (VInt 36), (VInt 38).
    repeat split; try (vm_compute; reflexivity); by eexists.
  - apply not_true_is_false. intros H.
    apply (decode_airjet_v01_succeeds_iff 100 v01_payload_heat_is_text) in H
      as [_ (heat & _ & _ & _ & Hheat & _ & _ & _ & [h Hh] & _)].
    assert (heat = VStr "on") as -> by (vm_compute in Hheat; congruence).
    discriminate Hh.
Defined.

Lemma type_error_aborts_cycle_witness :
  device_type v01_1 = Airjet_V01 /\
  fetch_data sample_dumps mixed_server sample_api
    ([("pump1", pump1)] ++ ("v01", v01_1) :: [("spa2", spa1)])
  = ([("pump1", Stored)], Raise TypeError,
     store_pool_filter sample_api "pump1"
       {| pf_timestamp := 150; pf_filter := false; pf_power := true;
          pf_time := VInt 4; pf_status := true; pf_error := false |}).
Proof.
  apply (type_error_aborts_cycle sample_dumps mixed_server sample_api
           [("pump1", pump1)] _ _ "v01" v01_1
           (poll 150 v01_payload_heat_is_text) [("spa2", spa1)]).
  - vm_compute; reflexivity.
  - reflexivity.
  - vm_compute; discriminate.
  - vm_compute; discriminate.
  - apply raises_v01. vm_compute; reflexivity.
Defined.

Lemma get_failure_aborts_cycle_witness :
  fetch_data sample_dumps mixed_server sample_api
    ([("pump1", pump1)] ++ ("gone", spa1) :: [("spa2", spa1)])
  = ([("pump1", Stored)], Raise (UpstreamError 504),
     store_pool_filter sample_api "pump1"
       {| pf_timestamp := 150; pf_filter := false; pf_power := true;
          pf_time := VInt 4; pf_status := true; pf_error := false |}).
Proof.
  apply (get_failure_aborts_cycle sample_dumps mixed_server sample_api
           [("pump1", pump1)] _ _ "gone" spa1 (UpstreamError 504)
           [("spa2", spa1)]).
  - vm_compute; reflexivity.
  - reflexivity.
Defined.

Lemma fetch_data_only_touches_polled_devices_witness :
  let api' := snd (fetch_data sample_dumps sample_server sample_api
                     [("pump1", pump1); ("x1", x1)]) in
  spa_state_cache api' !! "spa1" = spa_state_cache sample_api !! "spa1" /\
  pool_filter_state_cache api' !! "spa1"
  = pool_filter_state_cache sample_api !! "spa1" /\
  unknown_states api' !! "spa1" = unknown_states sample_api !! "spa1".
Proof.
  apply (fetch_data_only_touches_polled_devices sample_dumps sample_server
           [("pump1", pump1); ("x1", x1)] sample_api "spa1").
  apply (bool_decide_unpack _). vm_compute; exact I.
Defined.

Lemma fetch_data_keeps_records_witness :
  is_Some (spa_state_cache
    (snd (fetch_data sample_dumps sample_server sample_api
            [("spa1", spa1); ("pump1", pump1)])) !! "spa1").
Proof.
  apply (fetch_data_keeps_records sample_dumps sample_server
           [("spa1", spa1); ("pump1", pump1)] sample_api "spa1").
  exists sample_spa. vm_compute; reflexivity.
Defined.

Lemma first_poll_stored_iff_witness :
  (fst (fetch_device sample_dumps empty_api "spa1" spa1 fresh_airjet_poll)
   = Ok Stored <->
   0 < updated_at fresh_airjet_poll /\
   is_ok (decode_and_store sample_dumps empty_api "spa1" spa1 fresh_airjet_poll)
   = true) /\
  (updated_at (poll (-5) ∅) < 0 ->
   fetch_device sample_dumps empty_api "spa1" spa1 (poll (-5) ∅)
   = (Ok IgnoredStale, empty_api)).
Proof.
  split.
  - apply (first_poll_stored_iff sample_dumps empty_api "spa1" spa1
             fresh_airjet_poll). vm_compute; reflexivity.
  - apply (first_poll_stored_iff sample_dumps empty_api "spa1" spa1
             (poll (-5) ∅)). vm_compute; reflexivity.
Defined.

(** ** The command methods as a family *)

Section CommandFamily.

Variable srv : server.
Variable now : Z.
Variable api : BestwayApi.
Variable device_id : string.

Ltac run_spa Heq :=
  match type of Heq with
  | ?cmd _ _ _ _ _ = _ => unfold cmd in Heq
  | _ = ?cmd _ _ _ _ _ => unfold cmd in Heq
  end.

Lemma spa_command_stamps_now api' :
  runs_spa_command srv now api device_id (Ok tt, api') ->
  local_update_timestamp api' device_id = now.
Proof.
  intros H.
  inversion H as [power Heq|heat Heq|filtering Heq|is_locked Heq|bubbles Heq
                 |target_temp Heq];
    run_spa Heq;
    destruct (spa_state_cache api !! device_id) as [old|]; try discriminate Heq;
    destruct (do_post srv device_id _) as [[]|e]; try discriminate Heq;
    injection Heq as <-; rewrite local_update_timestamp_store_spa.
  - by destruct power.
  - by destruct heat.
  - by destruct filtering.
  - done.
  - by destruct bubbles.
  - done.
Qed.

Lemma pool_filter_command_stamps_now api' :
  runs_pool_filter_command srv now api device_id (Ok tt, api') ->
  spa_state_cache api !! device_id = None ->
  local_update_timestamp api' device_id = now.
Proof.
  intros H Hnone.
  inversion H as [power Heq|hours Heq];
    run_spa Heq;
    destruct (pool_filter_state_cache api !! device_id) as [old|];
    try discriminate Heq;
    destruct (do_post srv device_id _) as [[]|e]; try discriminate Heq;
    injection Heq as <-;
    by rewrite local_update_timestamp_store_pool_filter, Hnone.
Qed.

(** A spa command that returns has rewritten the record of its own device and
    nothing else: the new record carries [now] as timestamp, and its class,
    current temperature, unit, heater-reached flag, error list and earth
    fault are those of the old record. *)
Theorem spa_command_footprint api' :
  runs_spa_command srv now api device_id (Ok tt, api') ->
  exists old c,
    spa_state_cache api !! device_id = Some old /\
    api' = store_spa api device_id c /\
    timestamp c = now /\
    spa_cls c = spa_cls old /\ temp_now c = temp_now old /\
    temp_set_unit c = temp_set_unit old /\
    heat_temp_reach c = heat_temp_reach old /\
    errors c = errors old /\ earth_fault c = earth_fault old.
Proof.
  intros H.
  inversion H as [power Heq|heat Heq|filtering Heq|is_locked Heq|bubbles Heq
                 |target_temp Heq];
    run_spa Heq;
    destruct (spa_state_cache api !! device_id) as [old|]; try discriminate Heq;
    destruct (do_post srv device_id _) as [[]|e]; try discriminate Heq;
    injection Heq as <-; exists old; eexists;
    (split; [reflexivity|]); (split; [reflexivity|]).
  - by destruct power.
  - by destruct heat.
  - by destruct filtering.
  - done.
  - by destruct bubbles.
  - done.
Qed.

(** The same for the two pool-filter commands: the new record carries [now]
    as timestamp, and the filter-present flag, the running flag and the error
    flag of the record are never changed. *)
Theorem pool_filter_command_footprint api' :
  runs_pool_filter_command srv now api device_id (Ok tt, api') ->
  exists old c,
    pool_filter_state_cache api !! device_id = Some old /\
    api' = store_pool_filter api device_id c /\
    pf_timestamp c = now /\
    pf_filter c = pf_filter old /\ pf_status c = pf_status old /\
    pf_error c = pf_error old.
Proof.
  intros H.
  inversion H as [power Heq|hours Heq];
    run_spa Heq;
    destruct (pool_filter_state_cache api !! device_id) as [old|];
    try discriminate Heq;
    destruct (do_post srv device_id _) as [[]|e]; try discriminate Heq;
    injection Heq as <-; exists old; eexists;
    (split; [reflexivity|]); (split; [reflexivity|]); done.
Qed.

(** A command for an id with no record in its cache raises
    [BestwayException] ("... is not recognised") and changes nothing,
    whatever the server would have answered. *)
Theorem command_on_unknown_id out :
  (spa_state_cache api !! device_id = None ->
   runs_spa_command srv now api device_id out ->
   out = (Raise (not_recognised device_id), api)) /\
  (pool_filter_state_cache api !! device_id = None ->
   runs_pool_filter_command srv now api device_id out ->
   out = (Raise (not_recognised device_id), api)).
Proof.
  split; intros Hnone H; inversion H; subst;
    match goal with |- ?cmd _ _ _ _ _ = _ => unfold cmd end;
    by rewrite Hnone.
Qed.

(** A command is all or nothing: when it raises, the caches are what they
    were, and the exception is either "not recognised" or what the upstream
    write raised. *)
Theorem command_failure_changes_nothing e api' :
  runs_spa_command srv now api device_id (Raise e, api') \/
  runs_pool_filter_command srv now api device_id (Raise e, api') ->
  api' = api /\
  (e = not_recognised device_id \/
   exists body, do_post srv device_id body = Raise e).
Proof.
  intros [H|H].
  - inversion H as [power Heq|heat Heq|filtering Heq|is_locked Heq|bubbles Heq
                   |target_temp Heq];
      run_spa Heq;
      (destruct (spa_state_cache api !! device_id) as [old|];
       [|injection Heq as <- <-; by auto]);
      (destruct (do_post srv device_id _) as [[]|e'] eqn:Hpost;
       [discriminate Heq|]);
      injection Heq as <- <-; (split; [done|]); right; eauto.
  - inversion H as [power Heq|hours Heq];
      run_spa Heq;
      (destruct (pool_filter_state_cache api !! device_id) as [old|];
       [|injection Heq as <- <-; by auto]);
      (destruct (do_post srv device_id _) as [[]|e'] eqn:Hpost;
       [discriminate Heq|]);
      injection Heq as <- <-; (split; [done|]); right; eauto.
Qed.

(** Filter: switching the pump on also switches power on and leaves heater
    and bubbles alone; switching it off also switches bubbles and heater off
    and leaves power alone. *)
Theorem spa_set_filter_effects (old : BestwaySpaDeviceStatus) filtering :
  spa_state_cache api !! device_id = Some old ->
  do_post srv device_id ("filter_power", flag_int filtering) = Ok tt ->
  exists c,
    spa_set_filter srv now api device_id filtering
    = (Ok tt, store_spa api device_id c) /\
    filter_power c = filtering /\ temp_set c = temp_set old /\
    locked c = locked old /\
    (filtering = true ->
     spa_power c = VBool true /\ heat_power c = heat_power old /\
     wave_power c = wave_power old) /\
    (filtering = false ->
     wave_power c = VBool false /\ heat_power c = false /\
     spa_power c = spa_power old).
Proof.
  intros Hold Hpost. unfold spa_set_filter. rewrite Hold, Hpost.
  eexists. split; [reflexivity|]. by destruct filtering.
Qed.

(** Bubbles: switching them on also switches power on; switching them off
    changes nothing else. Heater and filter pump are left alone either way. *)
Theorem spa_set_bubbles_effects (old : BestwaySpaDeviceStatus) bubbles :
  spa_state_cache api !! device_id = Some old ->
  do_post srv device_id ("wave_power", flag_int bubbles) = Ok tt ->
  exists c,
    spa_set_bubbles srv now api device_id bubbles
    = (Ok tt, store_spa api device_id c) /\
    wave_power c = VBool bubbles /\
    heat_power c = heat_power old /\ filter_power c = filter_power old /\
    temp_set c = temp_set old /\ locked c = locked old /\
    (bubbles = true -> spa_power c = VBool true) /\
    (bubbles = false -> spa_power c = spa_power old).
Proof.
  intros Hold Hpost. unfold spa_set_bubbles. rewrite Hold, Hpost.
  eexists. split; [reflexivity|]. by destruct bubbles.
Qed.

(** Heater: switching it on also switches power and the filter pump on;
    switching it off changes nothing else. Bubbles are left alone either
    way. *)
Theorem spa_set_heat_effects (old : BestwaySpaDeviceStatus) heat :
  spa_state_cache api !! device_id = Some old ->
  do_post srv device_id ("heat_power", flag_int heat) = Ok tt ->
  exists c,
    spa_set_heat srv now api device_id heat
    = (Ok tt, store_spa api device_id c) /\
    heat_power c = heat /\ wave_power c = wave_power old /\
    temp_set c = temp_set old /\ locked c = locked old /\
    (heat = true -> spa_power c = VBool true /\ filter_power c = true) /\
    (heat = false ->
     spa_power c = spa_power old /\ filter_power c = filter_power old).
Proof.
  intros Hold Hpost. unfold spa_set_heat. rewrite Hold, Hpost.
  eexists. split; [reflexivity|]. by destruct heat.
Qed.

(** Switching a spa off and on again does not bring back what switching off
    turned off: after power off at [now] and power on at [later], power is on
    and filter, heater and bubbles are still off. *)
Theorem power_cycle_does_not_restore (old : BestwaySpaDeviceStatus) later :
  spa_state_cache api !! device_id = Some old ->
  do_post srv device_id ("power", flag_int false) = Ok tt ->
  do_post srv device_id ("power", flag_int true) = Ok tt ->
  exists api1 api2 c,
    spa_set_power srv now api device_id false = (Ok tt, api1) /\
    spa_set_power srv later api1 device_id true = (Ok tt, api2) /\
    spa_state_cache api2 !! device_id = Some c /\
    timestamp c = later /\ spa_power c = VBool true /\
    filter_power c = false /\ heat_power c = false /\
    wave_power c = VBool false.
Proof.
  intros Hold Hoff Hon. unfold spa_set_power at 1. rewrite Hold, Hoff.
  eexists _, _, _. split; [reflexivity|].
  unfold spa_set_power, store_spa at 1. simpl.
  rewrite lookup_insert_eq, Hon. split; [reflexivity|].
  simpl. rewrite lookup_insert_eq. by repeat split.
Qed.

End CommandFamily.

(** After a command that returned, the local write wins over the server until
    the server catches up: the arbitration timestamp of the device is [now],
    and every poll with a nonzero [updated_at] below [now] is ignored as
    stale. (For a pool-filter command the id must not also sit in the spa
    cache, which is asked first.) *)
Theorem command_beats_stale_poll json_dumps srv now api device_id api' :
  runs_spa_command srv now api device_id (Ok tt, api') \/
  (runs_pool_filter_command srv now api device_id (Ok tt, api') /\
   spa_state_cache api !! device_id = None) ->
  local_update_timestamp api' device_id = now /\
  forall device_info data,
    updated_at data <> 0 -> updated_at data < now ->
    fetch_device json_dumps api' device_id device_info data
    = (Ok IgnoredStale, api').
Proof.
  intros H.
  assert (local_update_timestamp api' device_id = now) as Hlocal.
  { destruct H as [H|[H Hnone]].
    - by apply spa_command_stamps_now in H.
    - by apply pool_filter_command_stamps_now in H. }
  split; [done|]. intros device_info data Hnz Hlt.
  apply fetch_device_stale; [done | lia].
Qed.

Lemma spa_command_footprint_witness :
  exists old c,
    spa_state_cache sample_api !! "spa1" = Some old /\
    snd (spa_set_filter (steady_server offline_poll) 200 sample_api "spa1" false)
    = store_spa sample_api "spa1" c /\
    timestamp c = 200 /\
    spa_cls c = spa_cls old /\ temp_now c = temp_now old /\
    temp_set_unit c = temp_set_unit old /\
    heat_temp_reach c = heat_temp_reach old /\
    errors c = errors old /\ earth_fault c = earth_fault old.
Proof.
  apply (spa_command_footprint (steady_server offline_poll) 200 sample_api "spa1").
  exact (runs_spa_set_filter (steady_server offline_poll) 200 sample_api
           "spa1" false).
Defined.

Lemma pool_filter_command_footprint_witness :
  exists old c,
    pool_filter_state_cache sample_api !! "pump1" = Some old /\
    snd (pool_filter_set_time (steady_server offline_poll) 200 sample_api
           "pump1" 6)
    = store_pool_filter sample_api "pump1" c /\
    pf_timestamp c = 200 /\
    pf_filter c = pf_filter old /\ pf_status c = pf_status old /\
    pf_error c = pf_error old.
Proof.
  apply (pool_filter_command_footprint (steady_server offline_poll) 200
           sample_api "pump1").
  exact (runs_pool_filter_set_time (steady_server offline_poll) 200 sample_api
           "pump1" 6).
Defined.

Lemma command_on_unknown_id_witness :
  spa_set_target_temp (steady_server offline_poll) 200 sample_api "nobody" 40
  = (Raise (not_recognised "nobody"), sample_api) /\
  pool_filter_set_power (steady_server offline_poll) 200 sample_api "nobody" true
  = (Raise (not_recognised "nobody"), sample_api).
Proof.
  split.
  - apply (proj1 (command_on_unknown_id (steady_server offline_poll) 200
                    sample_api "nobody" _)).
    + vm_compute; reflexivity.
    + apply runs_spa_set_target_temp.
  - apply (proj2 (command_on_unknown_id (steady_server offline_poll) 200
                    sample_api "nobody" _)).
    + vm_compute; reflexivity.
    + apply runs_pool_filter_set_power.
Defined.

Lemma command_failure_changes_nothing_witness :
  snd (spa_set_bubbles (failing_server 9042) 200 sample_api "spa1" true)
  = sample_api /\
  (UpstreamError 9042 = not_recognised "spa1" \/
   exists body, do_post (failing_server 9042) "spa1" body
                = Raise (UpstreamError 9042)).
Proof.
  apply (command_failure_changes_nothing (failing_server 9042) 200 sample_api
           "spa1" (UpstreamError 9042)).
  left.
  exact (runs_spa_set_bubbles (failing_server 9042) 200 sample_api "spa1" true).
Defined.

Lemma spa_set_filter_effects_witness :
  exists c,
    spa_set_filter (steady_server offline_poll) 200 sample_api "spa1" false
    = (Ok tt, store_spa sample_api "spa1" c) /\
    filter_power c = false /\ temp_set c = temp_set sample_spa /\
    locked c = locked sample_spa /\
    (false = true ->
     spa_power c = VBool true /\ heat_power c = heat_power sample_spa /\
     wave_power c = wave_power sample_spa) /\
    (false = false ->
     wave_power c = VBool false /\ heat_power c = false /\
     spa_power c = spa_power sample_spa).
Proof.
  apply (spa_set_filter_effects (steady_server offline_poll) 200 sample_api
           "spa1" sample_spa false).
  - vm_compute; reflexivity.
  - reflexivity.
Defined.

Lemma spa_set_bubbles_effects_witness :
  exists c,
    spa_set_bubbles (steady_server offline_poll) 200 sample_api "spa1" true
    = (Ok tt, store_spa sample_api "spa1" c) /\
    wave_power c = VBool true /\
    heat_power c = heat_power sample_spa /\
    filter_power c = filter_power sample_spa /\
    temp_set c = temp_set sample_spa /\ locked c = locked sample_spa /\
    (true = true -> spa_power c = VBool true) /\
    (true = false -> spa_power c = spa_power sample_spa).
Proof.
  apply (spa_set_bubbles_effects (steady_server offline_poll) 200 sample_api
           "spa1" sample_spa true).
  - vm_compute; reflexivity.
  - reflexivity.
Defined.

Lemma spa_set_heat_effects_witness :
  exists c,
    spa_set_heat (steady_server offline_poll) 200 sample_api "spa1" true
    = (Ok tt, store_spa sample_api "spa1" c) /\
    heat_power c = true /\ wave_power c = wave_power sample_spa /\
    temp_set c = temp_set sample_spa /\ locked c = locked sample_spa /\
    (true = true -> spa_power c = VBool true /\ filter_power c = true) /\
    (true = false ->
     spa_power c = spa_power sample_spa /\
     filter_power c = filter_power sample_spa).
Proof.
  apply (spa_set_heat_effects (steady_server offline_poll) 200 sample_api
           "spa1" sample_spa true).
  - vm_compute; reflexivity.
  - reflexivity.
Defined.

Lemma power_cycle_does_not_restore_witness :
  exists api1 api2 c,
    spa_set_power (steady_server offline_poll) 200 sample_api "spa1" false
    = (Ok tt, api1) /\
    spa_set_power (steady_server offline_poll) 300 api1 "spa1" true
    = (Ok tt, api2) /\
    spa_state_cache api2 !! "spa1" = Some c /\
    timestamp c = 300 /\ spa_power c = VBool true /\
    filter_power c = false /\ heat_power c = false /\
    wave_power c = VBool false.
Proof.
  apply (power_cycle_does_not_restore (steady_server offline_poll) 200
           sample_api "spa1" sample_spa 300).
  - vm_compute; reflexivity.
  - reflexivity.
  - reflexivity.
Defined.

Lemma command_beats_stale_poll_witness :
  local_update_timestamp
    (snd (spa_set_locked (steady_server offline_poll) 200 sample_api "spa1" true))
    "spa1" = 200 /\
  forall device_info data,
    updated_at data <> 0 -> updated_at data < 200 ->
    fetch_device sample_dumps
      (snd (spa_set_locked (steady_server offline_poll) 200 sample_api "spa1" true))
      "spa1" device_info data
    = (Ok IgnoredStale,
       snd (spa_set_locked (steady_server offline_poll) 200 sample_api "spa1" true)).
Proof.
  apply (command_beats_stale_poll sample_dumps (steady_server offline_poll) 200
           sample_api "spa1").
  left.
  exact (runs_spa_set_locked (steady_server offline_poll) 200 sample_api
           "spa1" true).
Defined.

(** ** The HTTP layer *)

Lemma py_eq_int_error_code (d : gmap string value) (n : Z) :
  n <> 0 ->
  py_eq_int (default (VInt 0) (d !! "error_code")) n = true <->
  exists v, d !! "error_code" = Some v /\ as_number v = Some n.
Proof.
  intros Hn. unfold py_eq_int. destruct (d !! "error_code") as [v|]; simpl.
  - destruct (as_number v) as [z|] eqn:Hz.
    + destruct (Z.eqb_spec z n) as [->|Hne]; split; try done.
      * intros _. by exists v.
      * intros (v' & [= <-] & Hv'). congruence.
    + split; [done|]. intros (v' & [= <-] & Hv'). congruence.
  - destruct n; [done| |]; (split; [done|]); by intros (v & ? & _).
Qed.

Ltac code_iff HP Huniq :=
  split;
  [ intros Heq; first [ discriminate Heq | apply HP; [lia | assumption] ]
  | intros Hp;
    first [ reflexivity
          | exfalso; apply HP in Hp; [congruence | lia]
          | exfalso;
            match goal with
            | E : py_eq_int _ ?k = true |- _ =>
                apply HP in E; [|lia]; pose proof (Huniq _ _ Hp E); lia
            end ] ].

Lemma raise_for_status_not_ok response :
  resp_ok response = false -> _raise_for_status response <> None.
Proof.
  unfold _raise_for_status, raise_for_status. intros ->.
  destruct (resp_json response) as [[api_error|]|]; [|done|done].
  simpl. by repeat case_match.
Qed.

(** [_raise_for_status] returns normally exactly for a response that is
    [ok]: a response that is not [ok] always raises, whatever its body. *)
Theorem raise_for_status_returns_iff_ok response :
  _raise_for_status response = None <-> resp_ok response = true.
Proof.
  split.
  - intros Hnone. destruct (resp_ok response) eqn:Hok; [done|].
    by apply raise_for_status_not_ok in Hok.
  - intros Hok. unfold _raise_for_status. by rewrite Hok.
Qed.

Lemma raise_for_status_returns_iff_ok_witness :
  _raise_for_status login_response = None /\
  _raise_for_status offline_response <> None.
Proof.
  split.
  - apply (raise_for_status_returns_iff_ok login_response). reflexivity.
  - intros H. apply (raise_for_status_returns_iff_ok offline_response) in H.
    discriminate H.
Defined.

(** Which exception a response that is not [ok] raises: one of the four
    Bestway exceptions exactly when [response.json()] gives an object whose
    [error_code] equals 9004, 9005, 9042 or 9020 respectively; in every other
    case the HTTP error of [raise_for_status], or [AttributeError] when the
    body is JSON but not an object. *)
Theorem raise_for_status_error_codes response e :
  _raise_for_status response = Some e ->
  (e = BestwayTokenInvalidException <-> error_code_is response 9004) /\
  (e = BestwayUserDoesNotExistException <-> error_code_is response 9005) /\
  (e = BestwayOfflineException <-> error_code_is response 9042) /\
  (e = BestwayIncorrectPasswordException <-> error_code_is response 9020) /\
  (is_bestway_exception e = false ->
   e = ClientResponseError (resp_status response) \/
   (e = AttributeError /\ resp_json response = Some JOther)).
Proof.
  unfold _raise_for_status, raise_for_status, error_code_is.
  destruct (resp_ok response); [discriminate|].
  destruct (resp_json response) as [[d|]|].
  - cbv zeta. set (c := default (VInt 0) (d !! "error_code")).
    set (P := fun n : Z => exists d0 v, Some (JObject d) = Some (JObject d0) /\
                 d0 !! "error_code" = Some v /\ as_number v = Some n).
    assert (forall n, n <> 0 -> py_eq_int c n = true <-> P n) as HP.
    { intros n Hn. subst c P. rewrite (py_eq_int_error_code d n Hn). split.
      - intros (v & Hv). by exists d, v.
      - intros (d0 & v & [= <-] & Hv). by exists v. }
    assert (forall n m, P n -> P m -> n = m) as Huniq.
    { intros n m (d0 & v & [= <-] & Hv & Hn) (d1 & v' & [= <-] & Hv' & Hm).
      congruence. }
    change (exists d0 v, Some (JObject d) = Some (JObject d0) /\
              d0 !! "error_code" = Some v /\ as_number v = Some 9004)
      with (P 9004).
    change (exists d0 v, Some (JObject d) = Some (JObject d0) /\
              d0 !! "error_code" = Some v /\ as_number v = Some 9005)
      with (P 9005).
    change (exists d0 v, Some (JObject d) = Some (JObject d0) /\
              d0 !! "error_code" = Some v /\ as_number v = Some 9042)
      with (P 9042).
    change (exists d0 v, Some (JObject d) = Some (JObject d0) /\
              d0 !! "error_code" = Some v /\ as_number v = Some 9020)
      with (P 9020).
    clearbody P c.
    destruct (py_eq_int c 9004) eqn:E1;
      [|destruct (py_eq_int c 9005) eqn:E2;
        [|destruct (py_eq_int c 9042) eqn:E3;
          [|destruct (py_eq_int c 9020) eqn:E4]]];
      intros [= <-];
      (split; [code_iff HP Huniq|]); (split; [code_iff HP Huniq|]);
      (split; [code_iff HP Huniq|]); (split; [code_iff HP Huniq|]);
      first [discriminate | intros _; by left].
  - intros [= <-]. repeat split; try done;
      try (by intros (d0 & v & [=] & _)). by right.
  - intros [= <-]. repeat split; try done;
      try (by intros (d0 & v & [=] & _)). by left.
Qed.

Lemma raise_for_status_error_codes_witness :
  (BestwayOfflineException = BestwayTokenInvalidException
   <-> error_code_is offline_response 9004) /\
  (BestwayOfflineException = BestwayUserDoesNotExistException
   <-> error_code_is offline_response 9005) /\
  (BestwayOfflineException = BestwayOfflineException
   <-> error_code_is offline_response 9042) /\
  (BestwayOfflineException = BestwayIncorrectPasswordException
   <-> error_code_is offline_response 9020) /\
  (is_bestway_exception BestwayOfflineException = false ->
   BestwayOfflineException = ClientResponseError (resp_status offline_response) \/
   (BestwayOfflineException = AttributeError /\
    resp_json offline_response = Some JOther)).
Proof.
  apply (raise_for_status_error_codes offline_response BestwayOfflineException).
  vm_compute; reflexivity.
Defined.

(** [_do_get] and [_do_post] return in exactly the same cases (an [ok]
    response whose body parses), but [_do_get] goes through
    [response.raise_for_status()]: on a response it never raises one of the
    Bestway exceptions, whatever [error_code] the body carries. *)
Theorem do_get_never_maps_error_codes :
  (forall reply doc, _do_get reply = inr doc <-> _do_post reply = inr doc) /\
  (forall response e,
     _do_get (inr response) = inl e -> is_bestway_exception e = false).
Proof.
  split.
  - intros [e|response] doc; simpl; [done|].
    unfold _raise_for_status, raise_for_status.
    destruct (resp_ok response); [done|].
    split; [done|].
    destruct (resp_json response) as [[d|]|]; try done.
    simpl. by repeat case_match.
  - intros response e. simpl. unfold raise_for_status.
    destruct (resp_ok response).
    + destruct (resp_json_any response); [done|]. by intros [= <-].
    + by intros [= <-].
Qed.

Lemma do_get_never_maps_error_codes_witness :
  _do_post (inr offline_response) = inl BestwayOfflineException /\
  _do_get (inr offline_response) = inl (ClientResponseError 400) /\
  is_bestway_exception (ClientResponseError 400) = false.
Proof.
  split; [vm_compute; reflexivity|]. split; [vm_compute; reflexivity|].
  apply (proj2 do_get_never_maps_error_codes offline_response).
  vm_compute; reflexivity.
Defined.

(** [get_user_token] returns a token exactly when the login response is [ok]
    and [response.json()] gives an object that has [uid], [token] and
    [expire_at]; the token then holds those three values. *)
Theorem get_user_token_returns_iff reply t :
  get_user_token reply = inr t <->
  exists response d,
    reply = inr response /\ resp_ok response = true /\
    resp_json response = Some (JObject d) /\
    d !! "uid" = Some (user_id t) /\ d !! "token" = Some (user_token t) /\
    d !! "expire_at" = Some (expiry t).
Proof.
  unfold get_user_token. split.
  - destruct reply as [e|response]; [done|].
    destruct (_raise_for_status response) as [e|] eqn:Hstatus; [done|].
    destruct (resp_ok response) eqn:Hok;
      [|by apply raise_for_status_not_ok in Hok].
    destruct (resp_json response) as [[d|]|] eqn:Hjson; [|done|done].
    destruct (getitem d "uid" ≫= _) as [t'|e] eqn:Hbind; [|done].
    intros [= <-]. exists response, d.
    apply bind_ok in Hbind as (uid & Huid & Hbind).
    apply bind_ok in Hbind as (token & Htoken & Hbind).
    apply bind_ok in Hbind as (expire_at & Hexpire & Hbind).
    injection Hbind as <-. simpl.
    apply getitem_ok in Huid, Htoken, Hexpire. by repeat split.
  - intros (response & d & -> & Hok & Hjson & Huid & Htoken & Hexpire).
    unfold _raise_for_status. rewrite Hok, Hjson.
    unfold getitem. rewrite Huid, Htoken, Hexpire. simpl. by destruct t.
Qed.

Lemma get_user_token_returns_iff_witness :
  get_user_token (inr login_response)
  = inr {| user_id := VStr "u1"; user_token := VStr "t1"; expiry := VInt 99 |}.
Proof.
  apply (get_user_token_returns_iff (inr login_response)).
  exists login_response, (list_to_map
    [("uid", VStr "u1"); ("token", VStr "t1"); ("expire_at", VInt 99)]).
  repeat split; vm_compute; reflexivity.
Defined.

(** ** Bindings *)

Lemma dict_get_dict_set {V} (d : list (string * V)) k v k' :
  dict_get (dict_set d k v) k'
  = if decide (k' = k) then Some v else dict_get d k'.
Proof.
  induction d as [|[k0 v0] d IH]; cbn [dict_get dict_set].
  - done.
  - destruct (decide (k = k0)) as [->|Hne]; cbn [dict_get dict_set].
    + by destruct (decide (k' = k0)).
    + rewrite IH. destruct (decide (k' = k0)) as [->|]; [|done].
      destruct (decide (k0 = k)); congruence.
Qed.

Lemma dict_set_keys {V} (d : list (string * V)) k v :
  fst <$> dict_set d k v
  = if decide (k ∈ (fst <$> d)) then fst <$> d else (fst <$> d) ++ [k].
Proof.
  induction d as [|[k0 v0] d IH]; cbn [dict_set].
  - destruct (decide (k ∈ (fst <$> ([] : list (string * V))))) as [Hin|];
      [|done]. by apply elem_of_nil in Hin.
  - rewrite !fmap_cons. cbn [fst].
    destruct (decide (k = k0)) as [->|Hne].
    + rewrite fmap_cons. cbn [fst].
      destruct (decide (k0 ∈ k0 :: (fst <$> d))) as [|Hnin]; [done|].
      exfalso. apply Hnin. by left.
    + rewrite fmap_cons, IH. cbn [fst].
      destruct (decide (k ∈ (fst <$> d))) as [Hin|Hnin];
        destruct (decide (k ∈ k0 :: (fst <$> d))) as [Hin'|Hnin']; try done.
      * exfalso. apply Hnin'. by right.
      * apply elem_of_cons in Hin' as [?|?]; done.
Qed.

Lemma dict_set_NoDup {V} (d : list (string * V)) k v :
  NoDup (fst <$> d) -> NoDup (fst <$> dict_set d k v).
Proof.
  intros Hd. rewrite dict_set_keys. destruct (decide (k ∈ (fst <$> d))); [done|].
  apply NoDup_app. split; [done|]. split.
  - intros x Hx [->|[]%elem_of_nil]%elem_of_cons. done.
  - apply NoDup_singleton.
Qed.

Lemma dict_set_keyed (d : list (string * BestwayDevice)) dev :
  Forall (fun kv => device_id (snd kv) = fst kv) d ->
  Forall (fun kv => device_id (snd kv) = fst kv) (dict_set d (device_id dev) dev).
Proof.
  induction 1 as [|[k0 v0] d Hk Hd IH]; simpl.
  - by repeat constructor.
  - destruct (decide (device_id dev = k0)) as [<-|Hne]; by constructor.
Qed.

(** [refresh_bindings] keeps one entry per device id, keyed by the id of the
    device it holds; when an id comes several times in the list it is the
    last device of that id that stays. *)
Theorem refresh_bindings_last_wins (devices : list BestwayDevice) :
  NoDup (fst <$> refresh_bindings devices) /\
  Forall (fun kv => device_id (snd kv) = fst kv) (refresh_bindings devices) /\
  forall did, dict_get (refresh_bindings devices) did = last_with_id did devices.
Proof.
  unfold refresh_bindings, last_with_id.
  assert (forall d : list (string * BestwayDevice),
    NoDup (fst <$> d) ->
    Forall (fun kv => device_id (snd kv) = fst kv) d ->
    NoDup (fst <$> fold_left (fun d dev => dict_set d (device_id dev) dev) devices d) /\
    Forall (fun kv => device_id (snd kv) = fst kv)
      (fold_left (fun d dev => dict_set d (device_id dev) dev) devices d) /\
    forall did,
      dict_get (fold_left (fun d dev => dict_set d (device_id dev) dev) devices d) did
      = match last (filter (fun dev => device_id dev = did) devices) with
        | Some dev => Some dev
        | None => dict_get d did
        end) as Hgen.
  { induction devices as [|dev devices IH]; intros d Hnd Hkeyed; simpl.
    - done.
    - destruct (IH (dict_set d (device_id dev) dev)) as (H1 & H2 & H3).
      { by apply dict_set_NoDup. }
      { by apply dict_set_keyed. }
      split; [done|]. split; [done|]. intros did. rewrite H3, filter_cons.
      rewrite dict_get_dict_set.
      destruct (decide (device_id dev = did)) as [<-|Hne].
      + rewrite decide_True by done.
        destruct (filter _ devices) as [|dev' l] eqn:Hf; simpl; [done|].
        destruct (last (dev' :: l)) eqn:Hl; [done|].
        by apply last_None in Hl.
      + rewrite decide_False by done. done. }
  destruct (Hgen []) as (H1 & H2 & H3); [constructor | constructor |].
  split; [done|]. split; [done|]. intros did. rewrite H3.
  by destruct (last _).
Qed.

(** A second binding of "spa1" takes the place of the first. *)
Example bindings_of_three :
  refresh_bindings three_bindings
  = [("spa1", device "spa1" Airjet_V01); ("pump1", device "pump1" POOL_FILTER)].
Proof. vm_compute; reflexivity. Qed.
